(** * Variational Bayesian last-layer surrogate (botorch_community/models/vblls.py)

    A shallow embedding of [SampleModel], [VBLLNetwork], [AbstractBLLModel]
    and [VBLLModel].  Tensors are contiguous row-major arrays of binary64
    numbers (the module sets the default dtype to float64); Python floats
    are binary64 as well.  The parameter tensors of the network live in a
    store addressed by locations, because [state_dict], the optimizer and
    [load_state_dict] all work on the same storage. *)

From Stdlib Require Import Floats ZArith Uint63 List Lia Bool.
From stdpp Require Import gmap strings list.

Local Open Scope nat_scope.
Set Warnings "-inexact-float".

(** ** Tensors *)

Record Tensor := mkTensor { shape : list nat; data : list float }.

Definition numel (s : list nat) : nat := foldr Nat.mul 1 s.

Definition dim (t : Tensor) : nat := length (shape t).

(** All multi-indices of a shape, in row-major order. *)
Fixpoint indices (s : list nat) : list (list nat) :=
  match s with
  | [] => [[]]
  | n :: s' => flat_map (fun i => map (cons i) (indices s')) (seq 0 n)
  end.

(** Row-major offset of a multi-index. *)
Fixpoint offset_from (acc : nat) (s idx : list nat) : nat :=
  match s, idx with
  | n :: s', i :: idx' => offset_from (acc * n + i) s' idx'
  | _, _ => acc
  end.

Definition offset (s idx : list nat) : nat := offset_from 0 s idx.

Definition get (t : Tensor) (idx : list nat) : float :=
  nth (offset (shape t) idx) (data t) 0%float.

Definition tabulate (s : list nat) (f : list nat -> float) : Tensor :=
  mkTensor s (map f (indices s)).

(** [t.squeeze()]: every axis of size one is dropped. *)
Definition squeeze (t : Tensor) : Tensor :=
  mkTensor (filter (fun n => n ≠ 1) (shape t)) (data t).

(** [t.squeeze(0)]: the first axis is dropped when its size is one. *)
Definition squeeze_first (t : Tensor) : Tensor :=
  match shape t with
  | 1 :: s => mkTensor s (data t)
  | _ => t
  end.

(** [t.squeeze(-1)]: the last axis is dropped when its size is one. *)
Definition squeeze_last (t : Tensor) : Tensor :=
  match rev (shape t) with
  | 1 :: r => mkTensor (rev r) (data t)
  | _ => t
  end.

(** [t.unsqueeze(0)] and [t[..., None]]. *)
Definition unsqueeze_first (t : Tensor) : Tensor :=
  mkTensor (1 :: shape t) (data t).

Definition unsqueeze_last (t : Tensor) : Tensor :=
  mkTensor (shape t ++ [1]) (data t).

(** [t.reshape(s)] on a contiguous tensor: the element count must agree. *)
Definition reshape (t : Tensor) (s : list nat) : option Tensor :=
  if numel (shape t) =? numel s then Some (mkTensor s (data t)) else None.

(** [torch.diag_embed(t)]: the last axis of size n becomes an n-by-n
    diagonal matrix, zero elsewhere.  A zero-dimensional input is refused
    (the two target axes -2 and -1 do not exist in a one-dimensional
    result). *)
Definition diag_embed (t : Tensor) : option Tensor :=
  match rev (shape t) with
  | [] => None
  | n :: r =>
      let lead := rev r in
      Some (tabulate (lead ++ [n; n])
              (fun idx =>
                 let b := take (length lead) idx in
                 match drop (length lead) idx with
                 | [i; j] => if i =? j then get t (b ++ [i]) else 0%float
                 | _ => 0%float
                 end))
  end.

(** [torch.einsum("bqkbrl->bqkrl", t)]: the diagonal over the two axes
    labelled b, which must have the same size. *)
Definition einsum_bqkbrl_bqkrl (t : Tensor) : option Tensor :=
  match shape t with
  | [b; q; k; b'; r; l] =>
      if b =? b' then
        Some (tabulate [b; q; k; r; l]
                (fun idx =>
                   match idx with
                   | [ib; iq; ik; ir; il] => get t [ib; iq; ik; ib; ir; il]
                   | _ => 0%float
                   end))
      else None
  | _ => None
  end.

(** [t.transpose(-1, -2)]. *)
Definition transpose_last2 (t : Tensor) : option Tensor :=
  match rev (shape t) with
  | m :: n :: r =>
      let lead := rev r in
      Some (tabulate (lead ++ [m; n])
              (fun idx =>
                 let b := take (length lead) idx in
                 match drop (length lead) idx with
                 | [j; i] => get t (b ++ [i; j])
                 | _ => 0%float
                 end))
  | _ => None
  end.

(** Broadcasting.  [proj s idx] reads a broadcast index back into a tensor
    of shape [s]: the index is aligned on the right and axes of size one
    are read at position 0. *)
Definition proj (s idx : list nat) : list nat :=
  zip_with (fun n i => if n =? 1 then 0 else i) s
           (drop (length idx - length s) idx).

Fixpoint broadcast_rev (a b : list nat) : option (list nat) :=
  match a, b with
  | [], s => Some s
  | s, [] => Some s
  | x :: a', y :: b' =>
      r ← broadcast_rev a' b';
      if x =? y then Some (x :: r)
      else if x =? 1 then Some (y :: r)
      else if y =? 1 then Some (x :: r)
      else None
  end.

Definition broadcast_shapes (a b : list nat) : option (list nat) :=
  @rev nat <$> broadcast_rev (rev a) (rev b).

(** [t.expand(sizes)]: -1 keeps an existing axis, a new leading axis needs
    an explicit size, an existing axis is kept or stretched from size one. *)
Fixpoint expand_sizes_rev (s : list nat) (sizes : list Z) : option (list nat) :=
  match s, sizes with
  | [], [] => Some []
  | [], z :: sizes' =>
      if (z <? 0)%Z then None
      else r ← expand_sizes_rev [] sizes'; Some (Z.to_nat z :: r)
  | _ :: _, [] => None
  | n :: s', z :: sizes' =>
      r ← expand_sizes_rev s' sizes';
      if (z =? -1)%Z then Some (n :: r)
      else if (z <? 0)%Z then None
      else if Z.to_nat z =? n then Some (n :: r)
      else if n =? 1 then Some (Z.to_nat z :: r)
      else None
  end.

Definition expand (t : Tensor) (sizes : list Z) : option Tensor :=
  s ← @rev nat <$> expand_sizes_rev (rev (shape t)) (rev sizes);
  Some (tabulate s (fun idx => get t (proj (shape t) idx))).

(** Sum of binary64 numbers in list order.  (Python's [sum] and the
    reductions inside the tensor library may round a long sum differently;
    no statement below depends on how a sum is rounded.) *)
Definition fsum (l : list float) : float := foldl PrimFloat.add 0%float l.

Definition split_last2 (s : list nat) : option (list nat * nat * nat) :=
  match rev s with
  | m :: n :: r => Some (rev r, n, m)
  | _ => None
  end.

(** Batched matrix product of two operands with at least two axes each:
    the leading axes broadcast, the last two are multiplied. *)
Definition bmm (a b : Tensor) : option Tensor :=
  '(ba, n, m) ← split_last2 (shape a);
  '(bb, m', p) ← split_last2 (shape b);
  if m =? m' then
    bs ← broadcast_shapes ba bb;
    Some (tabulate (bs ++ [n; p])
            (fun idx =>
               let bi := take (length bs) idx in
               match drop (length bs) idx with
               | [i; j] =>
                   fsum (map (fun k =>
                                PrimFloat.mul (get a (proj ba bi ++ [i; k]))
                                              (get b (proj bb bi ++ [k; j])))
                             (seq 0 m))
               | _ => 0%float
               end))
  else None.

(** [torch.matmul(a, b)]: a one-dimensional operand is promoted to a matrix
    and the added axis removed afterwards; a zero-dimensional operand is
    refused. *)
Definition matmul (a b : Tensor) : option Tensor :=
  match dim a, dim b with
  | 0, _ => None
  | _, 0 => None
  | 1, 1 =>
      r ← bmm (unsqueeze_first a) (unsqueeze_last b);
      Some (mkTensor [] (data r))
  | 1, _ =>
      r ← bmm (unsqueeze_first a) b;
      '(bs, _, p) ← split_last2 (shape r);
      Some (mkTensor (bs ++ [p]) (data r))
  | _, 1 =>
      r ← bmm a (unsqueeze_last b);
      '(bs, n, _) ← split_last2 (shape r);
      Some (mkTensor (bs ++ [n]) (data r))
  | _, _ => bmm a b
  end.

(** [torch.stack(rows)] along a new first axis, as the default collate
    function of a data loader does: all rows have the same shape. *)
Definition stack (rows : list Tensor) : option Tensor :=
  match rows with
  | [] => None
  | r :: _ =>
      if forallb (fun r' => bool_decide (shape r' = shape r)) rows
      then Some (mkTensor (length rows :: shape r) (concat (map data rows)))
      else None
  end.

(** ** Modules, storage and the network *)

Definition loc := nat.

(** A module: its named parameters, each a reference into the tensor
    storage, and its training flag. *)
Record Module := mkModule {
  parameters : list (string * loc);
  training : bool
}.

Record VBLLNetwork := mkVBLLNetwork {
  num_inputs : nat;
  num_outputs : nat;
  kl_scale : float;
  backbone : Module;
  head : Module;
  regularization_weight : float
}.

(** The model object ([self]) with the storage its tensors, and the
    tensors handed in by the caller, live in, and the [.grad] attribute of
    those tensors (absent for [None]). *)
Record AbstractBLLModel := mkModel {
  storage : gmap loc Tensor;
  grad : gmap loc Tensor;
  model : VBLLNetwork
}.

(** What the regression head returns: the predictive mean and variance
    and the training loss as a function of the targets. *)
Record VBLLReturn := mkReturn {
  predictive_mean : Tensor;
  predictive_variance : Tensor;
  train_loss_fn : Tensor -> float
}.

Record SampleModel := mkSampleModel {
  sm_backbone : Module;
  sampled_params : Tensor
}.

Record BLLPosterior := mkPosterior {
  mvn_mean : Tensor;
  mvn_covariance : Tensor;
  post_model : AbstractBLLModel;
  post_X : Tensor;
  post_num_outputs : nat
}.

Definition prefixed (p : string) (ps : list (string * loc)) : list (string * loc) :=
  map (fun e => (p +:+ e.1, e.2)) ps.

(** [self.model.named_parameters()]: the backbone is registered before
    the head. *)
Definition named_parameters (net : VBLLNetwork) : list (string * loc) :=
  prefixed "backbone." (parameters (backbone net)) ++
  prefixed "head." (parameters (head net)).

(** [self.model.state_dict()]: every entry refers to the storage of the
    parameter itself; no values are copied. *)
Definition state_dict (net : VBLLNetwork) : gmap string loc :=
  list_to_map (named_parameters net).

Section Network.

(** The forward pass of a backbone module and of the regression head
    (external): functions of the module, the storage and the input. *)
Variable backbone_forward : Module -> gmap loc Tensor -> Tensor -> option Tensor.
Variable head_forward : VBLLNetwork -> gmap loc Tensor -> Tensor -> option VBLLReturn.

(** The generator state and a reparameterised draw from the weight
    posterior [head.W()] (external); [rsample()] is [rsample] at the
    empty sample shape. *)
Variable Rng : Type.
Variable W_rsample : VBLLNetwork -> gmap loc Tensor -> Rng -> list nat -> Tensor * Rng.

(** [SampleModel.forward] *)
Definition SampleModel_forward (st : gmap loc Tensor) (sm : SampleModel)
    (x : Tensor) : option Tensor :=
  x ← backbone_forward (sm_backbone sm) st x;
  if dim (sampled_params sm) =? 2 then
    r ← matmul (sampled_params sm) (unsqueeze_last x);
    Some (squeeze_last r)
  else
    s0 ← shape (sampled_params sm) !! 0;
    x_expanded ← expand (unsqueeze_first x) [Z.of_nat s0; -1; -1]%Z;
    xt ← transpose_last2 x_expanded;
    matmul (sampled_params sm) xt.

(** [VBLLNetwork.forward] *)
Definition VBLLNetwork_forward (st : gmap loc Tensor) (net : VBLLNetwork)
    (x : Tensor) : option VBLLReturn :=
  x ← backbone_forward (backbone net) st x;
  head_forward net st x.

(** Truth value of an [Optional[torch.Size]]: [None] and the empty size
    are false, every other size is true. *)
Definition truthy (sample_shape : option (list nat)) : bool :=
  match sample_shape with
  | None => false
  | Some [] => false
  | Some (_ :: _) => true
  end.

(** [VBLLNetwork.sample_posterior_function] *)
Definition sample_posterior_function (st : gmap loc Tensor) (net : VBLLNetwork)
    (g : Rng) (sample_shape : option (list nat)) : SampleModel * Rng :=
  let '(sampled, g') :=
    if truthy sample_shape
    then W_rsample net st g (default [] sample_shape)
    else W_rsample net st g [] in
  (mkSampleModel (backbone net) sampled, g').

(** [VBLLModel.sample] *)
Definition sample (self : AbstractBLLModel) (g : Rng)
    (sample_shape : option (list nat)) : SampleModel * Rng :=
  sample_posterior_function (storage self) (model self) g sample_shape.

(** [AbstractBLLModel.posterior].  The method assigns to no attribute of
    [self]; the model is returned next to the result. *)
Definition posterior (self : AbstractBLLModel) (X : Tensor)
    : AbstractBLLModel * option BLLPosterior :=
  (self,
   let batched := dim X =? 3 in
   '(B, N, D, X) ←
     (if negb batched then
        match shape X with
        | [N; D] => Some (1, N, D, X)
        | _ => None
        end
      else
        match shape X with
        | [B; N; D] => X' ← reshape X [B * N; D]; Some (B, N, D, X')
        | _ => None
        end);
   out ← VBLLNetwork_forward (storage self) (model self) X;
   let mean := squeeze (predictive_mean out) in
   let variance := squeeze (predictive_variance out) in
   cov ← diag_embed variance;
   let K := num_outputs (model self) in
   mean ← reshape mean [B; N * K];
   cov ← reshape cov [B; N; K; B; N; K];
   cov ← einsum_bqkbrl_bqkrl cov;
   cov ← reshape cov [B; N * K; N * K];
   let '(mean, cov) :=
     if negb batched then (squeeze_first mean, squeeze_first cov)
     else (mean, cov) in
   Some (mkPosterior mean cov self X (num_outputs (model self)))).

End Network.

(** ** Modules with hidden state

    The forward pass of a module may read and write state that is not a
    parameter: the state of the random generator (dropout in training
    mode) and buffers (running statistics).  The definitions of this
    section are [VBLLNetwork_forward] and [posterior] with that state
    threaded through the calls of the backbone and of the head, the one
    place where these methods can touch it. *)

Section HiddenState.

Variable Hidden : Type.
Variable backbone_call :
  Module -> gmap loc Tensor -> Hidden -> Tensor -> option (Tensor * Hidden).
Variable head_call :
  VBLLNetwork -> gmap loc Tensor -> Hidden -> Tensor -> option (VBLLReturn * Hidden).

(** [VBLLNetwork.forward] *)
Definition VBLLNetwork_forward_with_state (st : gmap loc Tensor)
    (net : VBLLNetwork) (h : Hidden) (x : Tensor) : option (VBLLReturn * Hidden) :=
  '(x, h) ← backbone_call (backbone net) st h x;
  head_call net st h x.

(** [AbstractBLLModel.posterior]: the model and the hidden state after the
    call, and the posterior returned. *)
Definition posterior_with_state (self : AbstractBLLModel) (h : Hidden) (X : Tensor)
    : option (AbstractBLLModel * Hidden * BLLPosterior) :=
  let batched := dim X =? 3 in
  '(B, N, D, X) ←
    (if negb batched then
       match shape X with
       | [N; D] => Some (1, N, D, X)
       | _ => None
       end
     else
       match shape X with
       | [B; N; D] => X' ← reshape X [B * N; D]; Some (B, N, D, X')
       | _ => None
       end);
  '(out, h) ← VBLLNetwork_forward_with_state (storage self) (model self) h X;
  let mean := squeeze (predictive_mean out) in
  let variance := squeeze (predictive_variance out) in
  cov ← diag_embed variance;
  let K := num_outputs (model self) in
  mean ← reshape mean [B; N * K];
  cov ← reshape cov [B; N; K; B; N; K];
  cov ← einsum_bqkbrl_bqkrl cov;
  cov ← reshape cov [B; N * K; N * K];
  let '(mean, cov) :=
    if negb batched then (squeeze_first mean, squeeze_first cov)
    else (mean, cov) in
  Some (self, h, mkPosterior mean cov self X (num_outputs (model self))).

(** A forward pass that has no hidden state. *)
Definition without_state {M A B : Type} (f : M -> gmap loc Tensor -> A -> option B)
    : M -> gmap loc Tensor -> Hidden -> A -> option (B * Hidden) :=
  fun m st h x => y ← f m st x; Some (y, h).

End HiddenState.

(** ** Optimization settings, optimizer and data loader *)

Record Settings := mkSettings {
  num_epochs : Z;
  freeze_backbone : bool;
  patience : Z;
  batch_size : Z;
  lr : float;
  wd : float;
  clip_val : option float
}.

(** The caller's dictionary: every key may be absent ([clip_val] may also
    be present with the value [None]).  The keys "optimizer" and
    "optimizer_kwargs" select the update rule, which is a parameter of the
    training section below. *)
Record SettingsDict := mkSettingsDict {
  d_num_epochs : option Z;
  d_freeze_backbone : option bool;
  d_patience : option Z;
  d_batch_size : option Z;
  d_lr : option float;
  d_wd : option float;
  d_clip_val : option (option float)
}.

Definition default_opt_settings : Settings :=
  mkSettings 10000 false 100 32 1e-3%float 1e-4%float (Some 1%float).

(** [{**default_opt_settings, **optimization_settings}] *)
Definition merge_settings (optimization_settings : option SettingsDict) : Settings :=
  match optimization_settings with
  | None => default_opt_settings
  | Some d =>
      mkSettings
        (default (num_epochs default_opt_settings) (d_num_epochs d))
        (default (freeze_backbone default_opt_settings) (d_freeze_backbone d))
        (default (patience default_opt_settings) (d_patience d))
        (default (batch_size default_opt_settings) (d_batch_size d))
        (default (lr default_opt_settings) (d_lr d))
        (default (wd default_opt_settings) (d_wd d))
        (default (clip_val default_opt_settings) (d_clip_val d))
  end.

Record ParamGroup := mkGroup {
  params : list loc;
  weight_decay : float
}.

(** [int] to [float], for counts below 2^63. *)
Definition float_of_nat (n : nat) : float :=
  PrimFloat.of_uint63 (Uint63.of_Z (Z.of_nat n)).

(** [l[-n:]] for n >= 0 *)
Definition slice_last {A} (n : nat) (l : list A) : list A :=
  if n =? 0 then l else drop (length l - n) l.

(** Consecutive chunks of [bs] elements; the last one may be shorter. *)
Fixpoint chunks_fuel {A} (fuel bs : nat) (l : list A) : list (list A) :=
  match fuel with
  | 0 => []
  | S fuel' =>
      match l with
      | [] => []
      | _ :: _ => take bs l :: chunks_fuel fuel' bs (drop bs l)
      end
  end.

Definition chunks {A} (bs : nat) (l : list A) : list (list A) :=
  chunks_fuel (length l) bs l.

Record DataLoader := mkDataLoader {
  dataset : list (Tensor * Tensor);
  dl_batch_size : nat
}.

(** [DataLoader(dataset, shuffle=True, batch_size=...)]: the random
    sampler refuses an empty dataset and the batch sampler a batch size
    that is not positive. *)
Definition DataLoader_new (ds : list (Tensor * Tensor)) (bs : Z) : option DataLoader :=
  if bool_decide (ds = []) then None
  else if (0 <? bs)%Z then Some (mkDataLoader ds (Z.to_nat bs)) else None.

(** [len(dataloader)] *)
Definition dataloader_len (dl : DataLoader) : nat :=
  (length (dataset dl) + dl_batch_size dl - 1) / dl_batch_size dl.

(** One example list collated into an input batch and a target batch. *)
Definition collate (b : list (Tensor * Tensor)) : option (Tensor * Tensor) :=
  x ← stack (map fst b);
  y ← stack (map snd b);
  Some (x, y).

(** One pass over the loader, in the order [perm] drawn by its sampler. *)
Definition dataloader_iter (dl : DataLoader) (perm : list nat)
    : option (list (Tensor * Tensor)) :=
  mapM (fun idxs => b ← mapM (fun i => dataset dl !! i) idxs; collate b)
       (chunks (dl_batch_size dl) perm).

(** [[[train_X[i], train_y[i]] for i, _ in enumerate(train_X)]] *)
Definition make_dataset (train_X train_y : list Tensor)
    : option (list (Tensor * Tensor)) :=
  mapM (fun i => x ← train_X !! i; y ← train_y !! i; Some (x, y))
       (seq 0 (length train_X)).

(** [input_param[0]] of a vector. *)
Definition first_entry (v : Tensor) : option Tensor :=
  x ← data v !! 0; Some (mkTensor [] [x]).

(** [self.model.load_state_dict(sd)], strict: no unexpected and no missing
    key; a vector offered for a parameter without axes stands for its
    first entry; the shapes must then be equal; the values are copied into
    the parameters' own storage, one parameter after the other. *)
Fixpoint copy_params (sd : gmap string loc) (ps : list (string * loc))
    (st : gmap loc Tensor) : option (gmap loc Tensor) :=
  match ps with
  | [] => Some st
  | (name, l) :: ps' =>
      src ← sd !! name;
      v ← st !! src;
      p ← st !! l;
      v ← (if bool_decide (shape p = []) && (dim v =? 1)
           then first_entry v else Some v);
      if bool_decide (shape v = shape p)
      then copy_params sd ps' (<[l := v]> st)
      else None
  end.

Definition load_state_dict (net : VBLLNetwork) (sd : gmap string loc)
    (st : gmap loc Tensor) : option (gmap loc Tensor) :=
  if bool_decide (dom sd ⊆ list_to_set (map fst (named_parameters net)))
  then copy_params sd (named_parameters net) st
  else None.

(** [self.model.train()] *)
Definition train_mode (net : VBLLNetwork) : VBLLNetwork :=
  mkVBLLNetwork (num_inputs net) (num_outputs net) (kl_scale net)
    (mkModule (parameters (backbone net)) true)
    (mkModule (parameters (head net)) true)
    (regularization_weight net).

(** [AbstractBLLModel.set_reg_weight] *)
Definition set_reg_weight (self : AbstractBLLModel) (new_weight : float)
    : AbstractBLLModel :=
  let net := model self in
  mkModel (storage self) (grad self)
    (mkVBLLNetwork (num_inputs net) (num_outputs net) (kl_scale net)
       (backbone net) (head net) new_weight).

(** Gradient accumulation: a new gradient is added entry by entry to the
    one already stored. *)
Definition tensor_add (a b : Tensor) : Tensor :=
  mkTensor (shape a) (zip_with PrimFloat.add (data a) (data b)).

Definition accumulate (grads new : gmap loc Tensor) : gmap loc Tensor :=
  union_with (fun g n => Some (tensor_add g n)) grads new.

(** The parameter groups handed to the optimizer. *)
Definition param_list (net : VBLLNetwork) (settings : Settings) : list ParamGroup :=
  [mkGroup (map snd (parameters (head net))) 0%float] ++
  (if negb (freeze_backbone settings)
   then [mkGroup (map snd (parameters (backbone net))) (wd settings)]
   else []).

(** ** Training *)

Section Training.

Variable backbone_forward : Module -> gmap loc Tensor -> Tensor -> option Tensor.
Variable head_forward : VBLLNetwork -> gmap loc Tensor -> Tensor -> option VBLLReturn.

(** [loss.backward()]: the gradient of the batch loss for every parameter
    that received one, by location (external); it is added to the [.grad]
    the parameter already has. *)
Variable loss_backward :
  VBLLNetwork -> gmap loc Tensor -> Tensor -> Tensor -> gmap loc Tensor.

(** [torch.nn.utils.clip_grad_norm_(parameters, clip_val)] (external):
    rescales the [.grad] of the given parameters, never parameter values. *)
Variable clip_grad_norm_ : list loc -> float -> gmap loc Tensor -> gmap loc Tensor.

(** The optimizer class (external): its internal state, its constructor
    and its update of one parameter from the learning rate and weight
    decay of the parameter's group, the parameter's value and gradient. *)
Variable OptState : Type.
Variable optimizer_init : list ParamGroup -> float -> OptState.
Variable optimizer_update :
  OptState -> float -> float -> loc -> Tensor -> Tensor -> OptState * Tensor.

(** The index permutation the shuffling sampler draws in an epoch for a
    dataset of the given size (external randomness). *)
Variable randperm : Z -> nat -> list nat.

Record Optimizer := mkOptimizer {
  param_groups : list ParamGroup;
  opt_lr : float;
  opt_state : OptState
}.

(** [_get_optimizer], for an optimizer class that accepts the groups and
    the learning rate it is given; a class that rejects them raises, and
    such calls are outside what is modelled here. *)
Definition _get_optimizer (model_parameters : list ParamGroup) (lr : float)
    : Optimizer :=
  mkOptimizer model_parameters lr (optimizer_init model_parameters lr).

(** [optimizer.zero_grad()]: the gradients of the parameters in the
    optimizer's groups are reset, those of other parameters are kept. *)
Definition zero_grad (opt : Optimizer) (grads : gmap loc Tensor)
    : gmap loc Tensor :=
  foldr delete grads (concat (map params (param_groups opt))).

(** [optimizer.step()]: every parameter of every group that has a
    gradient is updated in place; nothing else is written. *)
Definition step_param (grads : gmap loc Tensor) (lr wd : float)
    (acc : OptState * gmap loc Tensor) (l : loc) : OptState * gmap loc Tensor :=
  match acc.2 !! l, grads !! l with
  | Some p, Some g =>
      let '(os, p') := optimizer_update acc.1 lr wd l p g in
      (os, <[l := p']> acc.2)
  | _, _ => acc
  end.

Definition step_group (grads : gmap loc Tensor) (lr : float)
    (acc : OptState * gmap loc Tensor) (g : ParamGroup) : OptState * gmap loc Tensor :=
  foldl (step_param grads lr (weight_decay g)) acc (params g).

Definition optimizer_step (opt : Optimizer) (grads : gmap loc Tensor)
    (st : gmap loc Tensor) : Optimizer * gmap loc Tensor :=
  let '(os, st') :=
    foldl (step_group grads (opt_lr opt)) (opt_state opt, st) (param_groups opt) in
  (mkOptimizer (param_groups opt) (opt_lr opt) os, st').

(** The body of the mini-batch loop. *)
Definition train_step (settings : Settings) (opt : Optimizer)
    (self : AbstractBLLModel) (b : Tensor * Tensor)
    : option (Optimizer * AbstractBLLModel * float) :=
  let '(x, y) := b in
  let grads := zero_grad opt (grad self) in
  out ← VBLLNetwork_forward backbone_forward head_forward
          (storage self) (model self) x;
  let loss := train_loss_fn out y in
  let grads := accumulate grads (loss_backward (model self) (storage self) x y) in
  let grads :=
    match clip_val settings with
    | Some c => clip_grad_norm_ (map snd (named_parameters (model self))) c grads
    | None => grads
    end in
  let '(opt', st') := optimizer_step opt grads (storage self) in
  Some (opt', mkModel st' grads (model self), loss).

Fixpoint train_batches (settings : Settings) (opt : Optimizer)
    (self : AbstractBLLModel) (batches : list (Tensor * Tensor))
    (running_loss : list float)
    : option (Optimizer * AbstractBLLModel * list float) :=
  match batches with
  | [] => Some (opt, self, running_loss)
  | b :: rest =>
      '(opt', self', loss) ← train_step settings opt self b;
      train_batches settings opt' self' rest (running_loss ++ [loss])
  end.

(** The losses of the mini-batches of one pass, each computed on the
    parameters that the steps before it have left. *)
Fixpoint batch_losses (settings : Settings) (opt : Optimizer)
    (self : AbstractBLLModel) (batches : list (Tensor * Tensor)) : list float :=
  match batches with
  | [] => []
  | b :: rest =>
      match train_step settings opt self b with
      | Some (opt', self', loss) => loss :: batch_losses settings opt' self' rest
      | None => []
      end
  end.

(** The variables of the epoch loop. *)
Record LoopState := mkLoop {
  ls_self : AbstractBLLModel;
  ls_optimizer : Optimizer;
  best_loss : float;
  epochs_no_improve : Z;
  early_stop : bool;
  best_model_state : option (gmap string loc);
  epoch : option Z
}.

(** [sum(running_loss[-len(dataloader):]) / len(dataloader)] *)
Definition average_loss (dl : DataLoader) (running_loss : list float)
    : option float :=
  if dataloader_len dl =? 0 then None
  else Some (PrimFloat.div (fsum (slice_last (dataloader_len dl) running_loss))
                           (float_of_nat (dataloader_len dl))).

(** The early-stopping bookkeeping at the end of an epoch. *)
Definition early_stopping (settings : Settings) (e : Z) (opt : Optimizer)
    (self : AbstractBLLModel) (avg_loss : float) (st : LoopState) : LoopState :=
  let '(best, state, no_improve) :=
    if PrimFloat.ltb avg_loss (best_loss st)
    then (avg_loss, Some (state_dict (model self)), 0%Z)
    else (best_loss st, best_model_state st, (epochs_no_improve st + 1)%Z) in
  mkLoop self opt best no_improve
    (if (patience settings <=? no_improve)%Z then true else early_stop st)
    state (Some e).

(** One epoch that is actually trained. *)
Definition epoch_body (settings : Settings) (dl : DataLoader) (e : Z)
    (st : LoopState) : option LoopState :=
  batches ← dataloader_iter dl (randperm e (length (dataset dl)));
  '(opt, self, running_loss) ←
    train_batches settings (ls_optimizer st) (ls_self st) batches [];
  avg_loss ← average_loss dl running_loss;
  Some (early_stopping settings e opt self avg_loss st).

Definition set_epoch (e : Z) (st : LoopState) : LoopState :=
  mkLoop (ls_self st) (ls_optimizer st) (best_loss st) (epochs_no_improve st)
    (early_stop st) (best_model_state st) (Some e).

(** [for epoch in range(1, num_epochs + 1): if early_stop: break; ...] *)
Fixpoint epoch_loop (settings : Settings) (dl : DataLoader)
    (epochs : list Z) (st : LoopState) : option LoopState :=
  match epochs with
  | [] => Some st
  | e :: rest =>
      if early_stop st then Some (set_epoch e st)
      else
        st' ← epoch_body settings dl e st;
        epoch_loop settings dl rest st'
  end.

(** [AbstractBLLModel.fit].  The result is the model after the call and
    the line printed at the end, if any: the value of [epoch] and the
    best loss. *)
Definition fit (self : AbstractBLLModel) (train_X train_y : list Tensor)
    (optimization_settings : option SettingsDict)
    (initialization_params : option (gmap string loc))
    : option (AbstractBLLModel * option (Z * float)) :=
  let settings := merge_settings optimization_settings in
  ds ← make_dataset train_X train_y;
  dl ← DataLoader_new ds (batch_size settings);
  st ← match initialization_params with
       | Some sd => load_state_dict (model self) sd (storage self)
       | None => Some (storage self)
       end;
  let self := mkModel st (grad self) (model self) in
  if length train_y =? 0 then None
  else
    let self :=
      set_reg_weight self
        (PrimFloat.div (kl_scale (model self)) (float_of_nat (length train_y))) in
    let optimizer := _get_optimizer (param_list (model self) settings) (lr settings) in
    let self := mkModel (storage self) (grad self) (train_mode (model self)) in
    final ← epoch_loop settings dl (seqZ 1 (num_epochs settings))
              (mkLoop self optimizer infinity 0%Z false None None);
    let self := ls_self final in
    match best_model_state final with
    | Some sd =>
        st ← load_state_dict (model self) sd (storage self);
        e ← epoch final;
        Some (mkModel st (grad self) (model self), Some (e, best_loss final))
    | None => Some (self, None)
    end.

End Training.

(** ** A worked instance: least squares with one weight per module

    The backbone scales its input by its single weight, the head scales
    the features by its single weight; the training loss is the sum of
    squared residuals, the optimizer is plain gradient descent with weight
    decay, the sampler visits the examples in order, and a weight draw is
    the tensor filled with the generator's current value. *)

Definition item (t : Tensor) : float := nth 0 (data t) 0%float.

Definition scalar (f : float) : Tensor := mkTensor [] [f].

Definition lsq_backbone (m : Module) (st : gmap loc Tensor) (x : Tensor)
    : option Tensor :=
  match parameters m with
  | [(_, l)] =>
      b ← st !! l;
      Some (mkTensor (shape x) (map (PrimFloat.mul (item b)) (data x)))
  | _ => None
  end.

Definition lsq_head (net : VBLLNetwork) (st : gmap loc Tensor) (f : Tensor)
    : option VBLLReturn :=
  match parameters (head net) with
  | [(_, l)] =>
      w ← st !! l;
      let pred := map (PrimFloat.mul (item w)) (data f) in
      Some (mkReturn (mkTensor (shape f) pred)
              (mkTensor (shape f) (map (fun _ => 1%float) pred))
              (fun y =>
                 fsum (zip_with (fun p t => PrimFloat.mul (PrimFloat.sub p t)
                                                          (PrimFloat.sub p t))
                                pred (data y))))
  | _ => None
  end.

Definition lsq_backward (net : VBLLNetwork) (st : gmap loc Tensor)
    (x y : Tensor) : gmap loc Tensor :=
  match parameters (backbone net), parameters (head net) with
  | [(_, lb)], [(_, lw)] =>
      match st !! lb, st !! lw with
      | Some b, Some w =>
          let r :=
            zip_with (fun xi yi =>
                        (PrimFloat.sub
                           (PrimFloat.mul (PrimFloat.mul (item w) (item b)) xi) yi,
                         xi))
                     (data x) (data y) in
          let grad other :=
            scalar (fsum (map (fun ex =>
                                 PrimFloat.mul
                                   (PrimFloat.mul (PrimFloat.mul 2%float ex.1) other)
                                   ex.2) r)) in
          <[lb := grad (item w)]> (<[lw := grad (item b)]> ∅)
      | _, _ => ∅
      end
  | _, _ => ∅
  end.

Definition no_clip (ps : list loc) (c : float) (g : gmap loc Tensor)
    : gmap loc Tensor := g.

Definition sgd_update (os : unit) (lr wd : float) (l : loc) (p g : Tensor)
    : unit * Tensor :=
  (tt, scalar (PrimFloat.sub (item p)
                 (PrimFloat.mul lr
                    (PrimFloat.add (item g) (PrimFloat.mul wd (item p)))))).

Definition in_order (e : Z) (n : nat) : list nat := seq 0 n.

Definition fill_rsample (net : VBLLNetwork) (st : gmap loc Tensor) (g : float)
    (s : list nat) : Tensor * float :=
  (tabulate (s ++ [num_outputs net; num_inputs net]) (fun _ => g),
   PrimFloat.add g 1%float).

Definition lsq_fit :=
  fit lsq_backbone lsq_head lsq_backward no_clip unit (fun _ _ => tt)
      sgd_update in_order.

Definition lsq_net (inputs outputs : nat) (kl : float) : VBLLNetwork :=
  mkVBLLNetwork inputs outputs kl
    (mkModule [("0.weight"%string, 0)] false)
    (mkModule [("W_mean"%string, 1)] false) 1%float.

(** Both weights start at 1; locations 2 and 3 hold tensors of the caller. *)
Definition lsq_model (inputs outputs : nat) (kl : float) : AbstractBLLModel :=
  mkModel (<[0 := scalar 1%float]> (<[1 := scalar 1%float]>
          (<[2 := scalar 3%float]> (<[3 := scalar 1%float]> ∅))))
          ∅ (lsq_net inputs outputs kl).

Definition row (l : list float) : Tensor := mkTensor [length l] l.

(** Concrete inputs for the worked instance. *)

Definition x32 : Tensor := mkTensor [3; 2] [1; 2; 3; 4; 5; 6]%float.

Definition x22 : Tensor := mkTensor [2; 2] [1; 2; 3; 4]%float.

Definition ones (n : nat) : list Tensor := replicate n (row [1%float]).

Definition zeros (n : nat) : list Tensor := replicate n (row [0%float]).

(** Frozen backbone, learning rate 1.5, no clipping: each step multiplies
    the head weight by -5 on the data [ones 2], [zeros 2]. *)
Definition lsq_settings (epochs : Z) : SettingsDict :=
  mkSettingsDict (Some epochs) (Some true) None None (Some 1.5%float) None (Some None).

(** A caller's state dictionary: its tensors are those at locations 2 and 3. *)
Definition lsq_init : gmap string loc :=
  <["backbone.0.weight"%string := 2]> (<["head.W_mean"%string := 3]> ∅).

Definition lsq_loader : DataLoader := mkDataLoader (zip (ones 2) (zeros 2)) 32.

(** The loop variables with which [fit] enters its epoch loop on the model
    [lsq_model 1 1 1], the data [ones 2], [zeros 2] and [lsq_settings 2]. *)
Definition lsq_start : LoopState unit :=
  mkLoop unit
    (mkModel (storage (lsq_model 1 1 1%float)) (grad (lsq_model 1 1 1%float))
       (train_mode
          (model (set_reg_weight (lsq_model 1 1 1%float)
                    (PrimFloat.div 1%float (float_of_nat 2))))))
    (_get_optimizer unit (fun _ _ => tt)
       (param_list (lsq_net 1 1 1%float) (merge_settings (Some (lsq_settings 2))))
       1.5%float)
    infinity 0%Z false None None.

Definition lsq_epoch : Z -> LoopState unit -> option (LoopState unit) :=
  epoch_body lsq_backbone lsq_head lsq_backward no_clip unit sgd_update in_order
    (merge_settings (Some (lsq_settings 2))) lsq_loader.

(** The backbone of the worked instance followed by a dropout layer with
    p = 1/2.  In training mode every feature is multiplied by 2 or by 0
    according to the next bit of the generator, whose state is the number
    of bits drawn so far and whose bits alternate; in evaluation mode the
    layer is the identity and draws nothing. *)
Definition dropout_backbone (m : Module) (st : gmap loc Tensor) (g : nat)
    (x : Tensor) : option (Tensor * nat) :=
  y ← lsq_backbone m st x;
  if training m
  then Some (mkTensor (shape y)
               (imap (fun i v =>
                        PrimFloat.mul v (if Nat.even (g + i) then 2%float else 0%float))
                     (data y)),
             g + length (data y))
  else Some (y, g).

(** The worked instance in training mode, as construction and [fit] leave
    a model. *)
Definition lsq_training : AbstractBLLModel :=
  mkModel (storage (lsq_model 1 1 1%float)) ∅ (train_mode (lsq_net 1 1 1%float)).

Definition x31 : Tensor := mkTensor [3; 1] [1; 2; 3]%float.

(** * Properties *)

(** ** Shapes of the tensor operations *)

Lemma shape_tabulate s f : shape (tabulate s f) = s.
Proof. reflexivity. Qed.

Lemma reshape_Some t s r : reshape t s = Some r -> shape r = s /\ data r = data t.
Proof.
  unfold reshape. destruct (numel (shape t) =? numel s); [|discriminate].
  intros [= <-]. split; reflexivity.
Qed.

Lemma reshape_None t s : numel (shape t) <> numel s -> reshape t s = None.
Proof.
  intros Hne. unfold reshape.
  destruct (Nat.eqb_spec (numel (shape t)) (numel s)); [contradiction|reflexivity].
Qed.

Lemma diag_embed_shape t lead n r :
  shape t = lead ++ [n] -> diag_embed t = Some r -> shape r = lead ++ [n; n].
Proof.
  intros Hs. unfold diag_embed. rewrite Hs, rev_app_distr. simpl.
  rewrite rev_involutive. intros [= <-]. reflexivity.
Qed.

Lemma bmm_shape a b ba n m bb p bs :
  split_last2 (shape a) = Some (ba, n, m) ->
  split_last2 (shape b) = Some (bb, m, p) ->
  broadcast_shapes ba bb = Some bs ->
  exists r, bmm a b = Some r /\ shape r = bs ++ [n; p].
Proof.
  intros Ha Hb Hbs. unfold bmm. rewrite Ha, Hb. simpl.
  rewrite Nat.eqb_refl, Hbs. simpl. eexists. split; reflexivity.
Qed.

Lemma squeeze_keeps s d :
  Forall (fun n => n <> 1) s -> squeeze (mkTensor s d) = mkTensor s d.
Proof.
  intros H. unfold squeeze. simpl. f_equal.
  induction H as [|n s Hn _ IH]; [reflexivity|].
  rewrite filter_cons. destruct (decide (n <> 1)); [|contradiction].
  f_equal. exact IH.
Qed.

Lemma matmul_bmm a b : 2 <= dim a -> 2 <= dim b -> matmul a b = bmm a b.
Proof.
  unfold matmul. intros Ha Hb.
  destruct (dim a) as [|[|da]]; [lia|lia|].
  destruct (dim b) as [|[|db]]; [lia|lia|reflexivity].
Qed.

Lemma expand_leading x S M H :
  shape x = [1; M; H] ->
  exists r, expand x [Z.of_nat S; -1; -1]%Z = Some r /\ shape r = [S; M; H].
Proof.
  intros Hx. unfold expand. rewrite Hx. simpl.
  assert (Hneg : (Z.of_nat S =? -1)%Z = false) by (apply Z.eqb_neq; lia).
  assert (Hlt : (Z.of_nat S <? 0)%Z = false) by (apply Z.ltb_ge; lia).
  rewrite Hneg, Hlt, Nat2Z.id.
  destruct (Nat.eqb_spec S 1) as [->|Hne]; simpl; eexists; split; reflexivity.
Qed.

Lemma transpose_last2_shape x S M H :
  shape x = [S; M; H] ->
  exists r, transpose_last2 x = Some r /\ shape r = [S; H; M].
Proof.
  intros Hx. unfold transpose_last2. rewrite Hx. simpl.
  eexists. split; reflexivity.
Qed.

(** C3: on a batch of M points the function returned by [sample(None)]
    gives an output of shape (M, out_features); the function returned by
    [sample((S,))] gives an output of shape (S, out_features, M), the last
    two axes in the opposite order to the one the claim states. *)
Theorem SampleModel_forward_shapes
    (backbone_forward : Module -> gmap loc Tensor -> Tensor -> option Tensor)
    (Rng : Type)
    (W_rsample : VBLLNetwork -> gmap loc Tensor -> Rng -> list nat -> Tensor * Rng)
    (self : AbstractBLLModel) (g : Rng) (x : Tensor) (M H S : nat) :
  (forall s, shape (W_rsample (model self) (storage self) g s).1
             = s ++ [num_outputs (model self); H]) ->
  (exists f, backbone_forward (backbone (model self)) (storage self) x = Some f
             /\ shape f = [M; H]) ->
  (exists out,
      SampleModel_forward backbone_forward (storage self)
        (sample Rng W_rsample self g None).1 x = Some out
      /\ shape out = [M; num_outputs (model self)]) /\
  (exists out,
      SampleModel_forward backbone_forward (storage self)
        (sample Rng W_rsample self g (Some [S])).1 x = Some out
      /\ shape out = [S; num_outputs (model self); M]).
Proof.
  intros Hdraw (f & Hf & Hfs). split.
  - unfold sample, sample_posterior_function, SampleModel_forward. simpl.
    pose proof (Hdraw []) as Hw. simpl in Hw.
    destruct (W_rsample (model self) (storage self) g []) as [w g']. simpl in *.
    rewrite Hf. simpl. unfold dim. rewrite Hw. simpl.
    rewrite matmul_bmm by (unfold dim, unsqueeze_last; simpl; rewrite ?Hw, ?Hfs; simpl; lia).
    destruct (bmm_shape w (unsqueeze_last f) [] (num_outputs (model self)) H [M] 1 [M])
      as (r & Hr & Hrs).
    + unfold split_last2. rewrite Hw. reflexivity.
    + unfold split_last2, unsqueeze_last. simpl. rewrite Hfs. reflexivity.
    + reflexivity.
    + rewrite Hr. simpl. eexists. split; [reflexivity|].
      unfold squeeze_last. rewrite Hrs. reflexivity.
  - unfold sample, sample_posterior_function, SampleModel_forward. simpl.
    pose proof (Hdraw [S]) as Hw. simpl in Hw.
    destruct (W_rsample (model self) (storage self) g [S]) as [w g']. simpl in *.
    rewrite Hf. simpl. unfold dim. rewrite Hw. simpl.
    destruct (expand_leading (unsqueeze_first f) S M H) as (xe & Hxe & Hxes).
    { unfold unsqueeze_first. simpl. rewrite Hfs. reflexivity. }
    rewrite Hxe. simpl.
    destruct (transpose_last2_shape xe S M H Hxes) as (xt & Hxt & Hxts).
    rewrite Hxt. simpl.
    rewrite matmul_bmm by (unfold dim; rewrite ?Hw, ?Hxts; simpl; lia).
    destruct (bmm_shape w xt [S] (num_outputs (model self)) H [S] M [S])
      as (r & Hr & Hrs).
    + unfold split_last2. rewrite Hw. reflexivity.
    + unfold split_last2. rewrite Hxts. reflexivity.
    + unfold broadcast_shapes. simpl. rewrite Nat.eqb_refl. reflexivity.
    + rewrite Hr. eexists. split; [reflexivity|exact Hrs].
Qed.

Lemma SampleModel_forward_shapes_witness :
  (exists out,
      SampleModel_forward lsq_backbone (storage (lsq_model 2 1 1%float))
        (sample float fill_rsample (lsq_model 2 1 1%float) 0.5%float None).1 x32
      = Some out /\ shape out = [3; 1]) /\
  (exists out,
      SampleModel_forward lsq_backbone (storage (lsq_model 2 1 1%float))
        (sample float fill_rsample (lsq_model 2 1 1%float) 0.5%float (Some [2])).1 x32
      = Some out /\ shape out = [2; 1; 3]).
Proof.
  apply (SampleModel_forward_shapes lsq_backbone float fill_rsample
           (lsq_model 2 1 1%float) 0.5%float x32 3 2 2).
  - intros s. reflexivity.
  - eexists. split; reflexivity.
Defined.

Example SampleModel_forward_two_draws :
  SampleModel_forward lsq_backbone (storage (lsq_model 2 1 1%float))
    (sample float fill_rsample (lsq_model 2 1 1%float) 0.5%float (Some [2])).1 x32
  = Some (mkTensor [2; 1; 3] [1.5; 3.5; 5.5; 1.5; 3.5; 5.5]%float).
Proof. vm_compute. reflexivity. Qed.

(** C1: for an unbatched input with N >= 2 points and K >= 2 outputs
    [posterior] returns no distribution: the per-point diagonal covariance
    has N*K*K entries and cannot be reshaped to (1, N, K, 1, N, K). *)
Theorem posterior_unbatched_multi_output_fails
    (backbone_forward : Module -> gmap loc Tensor -> Tensor -> option Tensor)
    (head_forward : VBLLNetwork -> gmap loc Tensor -> Tensor -> option VBLLReturn)
    (self : AbstractBLLModel) (X : Tensor) (N D K : nat) :
  2 <= N -> 2 <= K ->
  shape X = [N; D] ->
  num_outputs (model self) = K ->
  (forall out,
      VBLLNetwork_forward backbone_forward head_forward
        (storage self) (model self) X = Some out ->
      shape (predictive_mean out) = [N; K] /\
      shape (predictive_variance out) = [N; K]) ->
  (posterior backbone_forward head_forward self X).2 = None.
Proof.
  intros HN HK HX HKout Hfwd. unfold posterior. simpl.
  unfold dim. rewrite HX. simpl.
  destruct (VBLLNetwork_forward backbone_forward head_forward
              (storage self) (model self) X) as [out|] eqn:Hout; [|reflexivity].
  destruct (Hfwd out eq_refl) as [Hm Hv]. simpl.
  destruct (predictive_mean out) as [ms md]. destruct (predictive_variance out) as [vs vd].
  simpl in Hm, Hv. subst ms vs.
  assert (Hsq : Forall (fun n => n <> 1) [N; K]) by (repeat constructor; lia).
  rewrite !(squeeze_keeps _ _ Hsq).
  destruct (diag_embed (mkTensor [N; K] vd)) as [cov|] eqn:Hcov; [|reflexivity].
  apply (diag_embed_shape _ [N] K) in Hcov; [|reflexivity]. simpl in Hcov. simpl.
  destruct (reshape (mkTensor [N; K] md) [1; N * num_outputs (model self)]);
    [|reflexivity].
  simpl. rewrite reshape_None; [reflexivity|].
  rewrite Hcov, HKout. simpl. nia.
Qed.

Lemma posterior_unbatched_multi_output_fails_witness :
  shape x22 = [2; 2] /\ num_outputs (model (lsq_model 2 2 1%float)) = 2 /\
  (posterior lsq_backbone lsq_head (lsq_model 2 2 1%float) x22).2 = None.
Proof.
  split; [reflexivity|]. split; [reflexivity|].
  apply (posterior_unbatched_multi_output_fails lsq_backbone lsq_head
           (lsq_model 2 2 1%float) x22 2 2 2); [lia|lia|reflexivity|reflexivity|].
  intros out Hout. vm_compute in Hout. injection Hout as <-. split; reflexivity.
Defined.

(** The single-output case the module defaults to does go through. *)
Example posterior_single_output :
  mvn_covariance <$> (posterior lsq_backbone lsq_head (lsq_model 1 1 1%float)
                        (mkTensor [3; 1] [1; 2; 3]%float)).2
  = Some (mkTensor [3; 3] [1; 0; 0; 0; 1; 0; 0; 0; 1]%float).
Proof. vm_compute. reflexivity. Qed.

(** ** Reading a tabulated tensor *)

Lemma nth_flat_map_blocks {A B} (f : A -> list B) (m : nat) (d : B) (a0 : A) :
  (forall a, length (f a) = m) ->
  forall (l : list A) (i k : nat),
    i < length l -> k < m ->
    nth (i * m + k) (flat_map f l) d = nth k (f (nth i l a0)) d.
Proof.
  intros Hlen. induction l as [|a l IH]; intros i k Hi Hk; [simpl in Hi; lia|].
  cbn [flat_map]. destruct i as [|i].
  - simpl. apply app_nth1. rewrite Hlen. exact Hk.
  - rewrite app_nth2 by (rewrite Hlen; simpl; lia).
    rewrite Hlen. replace (S i * m + k - m) with (i * m + k) by (simpl; lia).
    cbn [nth]. apply IH; [simpl in Hi; lia|exact Hk].
Qed.

Lemma length_indices s : length (indices s) = numel s.
Proof.
  induction s as [|n s IH]; [reflexivity|]. cbn [indices numel foldr].
  fold (numel s). rewrite <- IH. generalize 0.
  induction n as [|n IHn]; intros start; [reflexivity|].
  cbn [seq flat_map]. rewrite length_app, length_map, IHn. simpl. reflexivity.
Qed.

Lemma offset_from_acc s : forall acc idx,
  Forall2 (fun n i => i < n) s idx ->
  offset_from acc s idx = acc * numel s + offset s idx /\ offset s idx < numel s.
Proof.
  unfold offset. induction s as [|n s IH]; intros acc idx Hv.
  - inversion Hv; subst. simpl. lia.
  - inversion Hv as [|n' i s' idx' Hi Hrest]; subst.
    cbn [offset_from numel foldr]. fold (numel s).
    destruct (IH (acc * n + i) idx' Hrest) as [-> Hlt].
    destruct (IH (0 * n + i) idx' Hrest) as [-> _].
    split; nia.
Qed.

Lemma nth_indices s : forall idx,
  Forall2 (fun n i => i < n) s idx ->
  nth (offset s idx) (indices s) [] = idx.
Proof.
  induction s as [|n s IH]; intros idx Hv.
  - inversion Hv; subst. reflexivity.
  - inversion Hv as [|n' i s' idx' Hi Hrest]; subst.
    unfold offset. cbn [offset_from indices].
    destruct (offset_from_acc s (0 * n + i) idx' Hrest) as [-> Hlt].
    replace (0 * n + i) with i by lia.
    rewrite (nth_flat_map_blocks _ (numel s) [] 0);
      [|intros a; rewrite length_map; apply length_indices
       |rewrite length_seq; exact Hi|exact Hlt].
    rewrite seq_nth by exact Hi. simpl.
    rewrite (nth_indep _ [] (i :: [])).
    + change (i :: []) with ((cons i) []) at 1. rewrite map_nth. f_equal. apply IH, Hrest.
    + rewrite length_map, length_indices. exact Hlt.
Qed.

Lemma nth_tabulate s f idx k :
  Forall2 (fun n i => i < n) s idx ->
  k = offset s idx ->
  nth k (data (tabulate s f)) 0%float = f idx.
Proof.
  intros Hv ->. unfold tabulate. cbn [data].
  destruct (offset_from_acc s 0 idx Hv) as [_ Hlt].
  rewrite (nth_indep _ 0%float (f [])) by (rewrite length_map, length_indices; exact Hlt).
  rewrite map_nth. f_equal. apply nth_indices, Hv.
Qed.

Lemma reshape_ok t s :
  numel (shape t) = numel s -> reshape t s = Some (mkTensor s (data t)).
Proof. intros H. unfold reshape. rewrite H, Nat.eqb_refl. reflexivity. Qed.

(** X1: For a single-output network, the configuration the module defaults
    to, and N >= 2 points the construction goes through: the mean has N
    entries and the covariance is the N-by-N diagonal matrix of the
    per-point variances. *)
Lemma posterior_single_output_diagonal
    (backbone_forward : Module -> gmap loc Tensor -> Tensor -> option Tensor)
    (head_forward : VBLLNetwork -> gmap loc Tensor -> Tensor -> option VBLLReturn)
    (self : AbstractBLLModel) (X : Tensor) (N D : nat) (out : VBLLReturn) :
  2 <= N ->
  shape X = [N; D] ->
  num_outputs (model self) = 1 ->
  VBLLNetwork_forward backbone_forward head_forward (storage self) (model self) X
    = Some out ->
  shape (predictive_mean out) = [N; 1] ->
  shape (predictive_variance out) = [N; 1] ->
  exists p,
    (posterior backbone_forward head_forward self X).2 = Some p /\
    shape (mvn_mean p) = [N * 1] /\
    data (mvn_mean p) = data (predictive_mean out) /\
    shape (mvn_covariance p) = [N * 1; N * 1] /\
    forall i j, i < N -> j < N ->
      get (mvn_covariance p) [i; j]
      = if i =? j then get (predictive_variance out) [i; 0] else 0%float.
Proof.
  intros HN HX HK Hout Hm Hv. unfold posterior. cbn [snd].
  unfold dim. rewrite HX. cbn [length Nat.eqb negb mbind option_bind].
  rewrite Hout. cbn [mbind option_bind].
  destruct (predictive_mean out) as [ms md]. destruct (predictive_variance out) as [vs vd].
  cbn [shape] in Hm, Hv. subst ms vs.
  assert (Hsq : forall d, squeeze (mkTensor [N; 1] d) = mkTensor [N] d).
  { intros d. unfold squeeze. cbn [shape data]. f_equal.
    rewrite filter_cons. destruct (decide (N <> 1)); [|lia]. reflexivity. }
  rewrite !Hsq, HK.
  unfold diag_embed. cbn [shape rev app length mbind option_bind].
  rewrite reshape_ok by (cbn; lia). cbn [mbind option_bind].
  rewrite reshape_ok by (cbn; lia). cbn [mbind option_bind].
  unfold einsum_bqkbrl_bqkrl. cbn [shape Nat.eqb mbind option_bind].
  rewrite reshape_ok by (cbn; lia). cbn [mbind option_bind squeeze_first shape data].
  eexists. split; [reflexivity|]. cbn [mvn_mean mvn_covariance shape data].
  split; [reflexivity|]. split; [reflexivity|]. split; [reflexivity|].
  intros i j Hi Hj. unfold get at 1. cbn [shape data].
  rewrite (nth_tabulate [1; N; 1; N; 1] _ [0; i; 0; j; 0]);
    [|repeat constructor; lia|unfold offset; cbn; lia].
  unfold get at 1. cbn [shape data].
  rewrite (nth_tabulate [N; N] _ [i; j]);
    [|repeat constructor; lia|unfold offset; cbn; lia].
  cbn [take drop length app]. destruct (i =? j); [|reflexivity].
  unfold get, offset. cbn [shape data offset_from]. f_equal. lia.
Qed.

Lemma posterior_single_output_diagonal_holds :
  exists p,
    (posterior lsq_backbone lsq_head (lsq_model 1 1 1%float)
       (mkTensor [3; 1] [1; 2; 3]%float)).2 = Some p /\
    shape (mvn_mean p) = [3] /\ shape (mvn_covariance p) = [3; 3].
Proof.
  destruct (VBLLNetwork_forward lsq_backbone lsq_head
              (storage (lsq_model 1 1 1%float)) (model (lsq_model 1 1 1%float))
              (mkTensor [3; 1] [1; 2; 3]%float)) as [out|] eqn:Hout;
    [|vm_compute in Hout; discriminate].
  destruct (posterior_single_output_diagonal lsq_backbone lsq_head
              (lsq_model 1 1 1%float) (mkTensor [3; 1] [1; 2; 3]%float) 3 1 out)
    as (p & Hp & Hms & _ & Hcs & _);
    [lia|reflexivity|reflexivity|exact Hout
    |vm_compute in Hout; injection Hout as <-; reflexivity
    |vm_compute in Hout; injection Hout as <-; reflexivity|].
  exists p. repeat split; assumption.
Defined.

(** C10, as amended: an empty sample shape is treated as [None], one
    unbatched draw with two axes; every non-empty shape, also one that
    contains 0, asks for a shaped draw with at least three axes. *)
Theorem sample_posterior_function_empty_shape
    (Rng : Type)
    (W_rsample : VBLLNetwork -> gmap loc Tensor -> Rng -> list nat -> Tensor * Rng)
    (st : gmap loc Tensor) (net : VBLLNetwork) (g : Rng) (K H : nat) :
  (forall s, shape (W_rsample net st g s).1 = s ++ [K; H]) ->
  sample_posterior_function Rng W_rsample st net g (Some [])
    = sample_posterior_function Rng W_rsample st net g None /\
  dim (sampled_params (sample_posterior_function Rng W_rsample st net g None).1) = 2 /\
  forall n s,
    sampled_params (sample_posterior_function Rng W_rsample st net g (Some (n :: s))).1
      = (W_rsample net st g (n :: s)).1 /\
    dim (sampled_params
           (sample_posterior_function Rng W_rsample st net g (Some (n :: s))).1)
      = 3 + length s.
Proof.
  intros Hdraw. split; [reflexivity|]. split.
  - unfold sample_posterior_function. simpl.
    pose proof (Hdraw []) as Hs.
    destruct (W_rsample net st g []) as [w g']. simpl in *.
    unfold dim. rewrite Hs. reflexivity.
  - intros n s. unfold sample_posterior_function. simpl.
    pose proof (Hdraw (n :: s)) as Hs.
    destruct (W_rsample net st g (n :: s)) as [w g']. simpl in *.
    split; [reflexivity|]. unfold dim. rewrite Hs. simpl.
    rewrite length_app. simpl. lia.
Qed.

Lemma sample_posterior_function_empty_shape_witness :
  sample_posterior_function float fill_rsample
    (storage (lsq_model 2 1 1%float)) (lsq_net 2 1 1%float) 0.5%float (Some [])
  = sample_posterior_function float fill_rsample
      (storage (lsq_model 2 1 1%float)) (lsq_net 2 1 1%float) 0.5%float None.
Proof.
  apply (sample_posterior_function_empty_shape float fill_rsample
           (storage (lsq_model 2 1 1%float)) (lsq_net 2 1 1%float) 0.5%float 1 2).
  intros s. reflexivity.
Defined.

(** A shape that contains 0 is not empty: the draw is shaped, has three
    axes, and differs from the draw made for [None]. *)
Lemma sample_posterior_function_zero_size_is_batched :
  truthy (Some [0]) = true /\
  sampled_params
    (sample_posterior_function float fill_rsample
       (storage (lsq_model 2 1 1%float)) (lsq_net 2 1 1%float) 0.5%float (Some [0])).1
  = mkTensor [0; 1; 2] [] /\
  sampled_params
    (sample_posterior_function float fill_rsample
       (storage (lsq_model 2 1 1%float)) (lsq_net 2 1 1%float) 0.5%float None).1
  = mkTensor [1; 2] [0.5; 0.5]%float /\
  SampleModel_forward lsq_backbone (storage (lsq_model 2 1 1%float))
    (sample_posterior_function float fill_rsample
       (storage (lsq_model 2 1 1%float)) (lsq_net 2 1 1%float) 0.5%float (Some [0])).1
    x32
  = Some (mkTensor [0; 1; 3] []) /\
  SampleModel_forward lsq_backbone (storage (lsq_model 2 1 1%float))
    (sample_posterior_function float fill_rsample
       (storage (lsq_model 2 1 1%float)) (lsq_net 2 1 1%float) 0.5%float None).1
    x32
  = Some (mkTensor [3; 1] [1.5; 3.5; 5.5]%float).
Proof. repeat split; vm_compute; reflexivity. Qed.


(** ** Batching *)

Lemma chunks_fuel_length {A} (bs : nat) : forall fuel (l : list A),
  1 <= bs -> length l <= fuel ->
  length (chunks_fuel fuel bs l) = (length l + bs - 1) / bs.
Proof.
  induction fuel as [|fuel IH]; intros l Hbs Hlen.
  - destruct l; [|simpl in Hlen; lia]. simpl.
    symmetry. apply Nat.div_small. lia.
  - destruct l as [|a l]; simpl.
    + symmetry. apply Nat.div_small. lia.
    + rewrite IH; [|lia|rewrite length_drop; simpl in *; lia].
      rewrite length_drop. cbn [length].
      pose proof (Nat.div_mod_eq (S (length l) - bs + bs - 1) bs) as Hdm.
      pose proof (Nat.mod_upper_bound (S (length l) - bs + bs - 1) bs) as Hub.
      destruct (Nat.le_gt_cases bs (S (length l))) as [Hle|Hgt].
      * apply Nat.div_unique with (r := (S (length l) - bs + bs - 1) mod bs); lia.
      * rewrite (Nat.div_small (S (length l) - bs + bs - 1)) by lia.
        apply Nat.div_unique with (r := length l); lia.
Qed.

Lemma chunks_length {A} (bs : nat) (l : list A) :
  1 <= bs -> length (chunks bs l) = (length l + bs - 1) / bs.
Proof. intros Hbs. apply chunks_fuel_length; [exact Hbs|reflexivity]. Qed.

Lemma dataloader_iter_length dl perm batches :
  1 <= dl_batch_size dl ->
  length perm = length (dataset dl) ->
  dataloader_iter dl perm = Some batches ->
  length batches = dataloader_len dl.
Proof.
  intros Hbs Hperm Hiter. unfold dataloader_iter in Hiter.
  apply length_mapM in Hiter. rewrite <- Hiter, chunks_length by exact Hbs.
  unfold dataloader_len. rewrite Hperm. reflexivity.
Qed.

Lemma slice_last_all {A} (l : list A) : slice_last (length l) l = l.
Proof.
  unfold slice_last. destruct (length l =? 0); [reflexivity|].
  rewrite Nat.sub_diag. reflexivity.
Qed.

Lemma ceil_div_spec (n bs : nat) :
  1 <= bs -> 1 <= n ->
  let k := (n + bs - 1) / bs in
  1 <= k /\ bs * (k - 1) < n <= bs * k.
Proof.
  intros Hbs Hn k.
  pose proof (Nat.div_mod_eq (n + bs - 1) bs) as Hdm.
  pose proof (Nat.mod_upper_bound (n + bs - 1) bs) as Hub.
  fold k in Hdm. assert (1 <= k) by (subst k; apply Nat.div_le_lower_bound; lia).
  split; [assumption|]. nia.
Qed.

(** ** The training loop *)

Section TrainingFacts.

#[local] Set Default Proof Using "Type".

Variable backbone_forward : Module -> gmap loc Tensor -> Tensor -> option Tensor.
Variable head_forward : VBLLNetwork -> gmap loc Tensor -> Tensor -> option VBLLReturn.
Variable loss_backward :
  VBLLNetwork -> gmap loc Tensor -> Tensor -> Tensor -> gmap loc Tensor.
Variable clip_grad_norm_ : list loc -> float -> gmap loc Tensor -> gmap loc Tensor.
Variable OptState : Type.
Variable optimizer_init : list ParamGroup -> float -> OptState.
Variable optimizer_update :
  OptState -> float -> float -> loc -> Tensor -> Tensor -> OptState * Tensor.
Variable randperm : Z -> nat -> list nat.

Local Abbreviation train_step' :=
  (train_step backbone_forward head_forward loss_backward clip_grad_norm_
              OptState optimizer_update).
Local Abbreviation train_batches' :=
  (train_batches backbone_forward head_forward loss_backward clip_grad_norm_
                 OptState optimizer_update).
Local Abbreviation batch_losses' :=
  (batch_losses backbone_forward head_forward loss_backward clip_grad_norm_
                OptState optimizer_update).
Local Abbreviation epoch_body' :=
  (epoch_body backbone_forward head_forward loss_backward clip_grad_norm_
              OptState optimizer_update randperm).
Local Abbreviation epoch_loop' :=
  (epoch_loop backbone_forward head_forward loss_backward clip_grad_norm_
              OptState optimizer_update randperm).
Local Abbreviation fit' :=
  (fit backbone_forward head_forward loss_backward clip_grad_norm_
       OptState optimizer_init optimizer_update randperm).
Local Abbreviation step_param' := (step_param OptState optimizer_update).
Local Abbreviation step_group' := (step_group OptState optimizer_update).
Local Abbreviation optimizer_step' := (optimizer_step OptState optimizer_update).

(** *** What an optimizer step writes *)

Lemma step_param_frame grads lr wd acc l l' :
  l' <> l -> (step_param' grads lr wd acc l).2 !! l' = acc.2 !! l'.
Proof.
  intros Hne. unfold step_param.
  destruct (acc.2 !! l) as [p|]; [|reflexivity].
  destruct (grads !! l) as [g|]; [|reflexivity].
  destruct (optimizer_update acc.1 lr wd l p g) as [os p']. simpl.
  apply lookup_insert_ne. congruence.
Qed.

Lemma step_params_frame grads lr wd ls acc l' :
  l' ∉ ls ->
  (foldl (step_param' grads lr wd) acc ls).2 !! l' = acc.2 !! l'.
Proof.
  revert acc. induction ls as [|l ls IH]; intros acc Hnotin; [reflexivity|].
  apply not_elem_of_cons in Hnotin as [Hne Hnotin].
  simpl. rewrite IH by exact Hnotin.
  apply step_param_frame. exact Hne.
Qed.

Lemma step_groups_frame grads lr gs acc l' :
  (forall g, g ∈ gs -> l' ∉ params g) ->
  (foldl (step_group' grads lr) acc gs).2 !! l' = acc.2 !! l'.
Proof.
  revert acc. induction gs as [|g gs IH]; intros acc Hnotin; [reflexivity|].
  simpl. rewrite IH by (intros g' Hg'; apply Hnotin, elem_of_cons; by right).
  unfold step_group. apply step_params_frame. apply Hnotin, elem_of_cons. by left.
Qed.

Lemma optimizer_step_frame opt grads st l' :
  (forall g, g ∈ param_groups OptState opt -> l' ∉ params g) ->
  (optimizer_step' opt grads st).2 !! l' = st !! l'.
Proof.
  intros Hnotin. unfold optimizer_step.
  pose proof (step_groups_frame grads (opt_lr OptState opt)
                (param_groups OptState opt) (opt_state OptState opt, st) l' Hnotin) as H.
  destruct (foldl _ _ _) as [os st']. exact H.
Qed.

Lemma optimizer_step_groups opt grads st :
  param_groups OptState (optimizer_step' opt grads st).1 = param_groups OptState opt.
Proof.
  unfold optimizer_step. destruct (foldl _ _ _) as [os st']. reflexivity.
Qed.

(** *** One mini-batch *)

Lemma train_step_inv settings opt self b opt' self' loss :
  train_step' settings opt self b = Some (opt', self', loss) ->
  model self' = model self /\
  param_groups OptState opt' = param_groups OptState opt /\
  (forall l, (forall g, g ∈ param_groups OptState opt -> l ∉ params g) ->
             storage self' !! l = storage self !! l).
Proof.
  unfold train_step. destruct b as [x y].
  destruct (VBLLNetwork_forward _ _ _ _ _) as [out|]; [|discriminate]. simpl.
  set (grads := match clip_val settings with Some c => _ | None => _ end).
  pose proof (optimizer_step_groups opt grads (storage self)) as Hg.
  pose proof (optimizer_step_frame opt grads (storage self)) as Hf.
  destruct (optimizer_step' opt grads (storage self)) as [o st'].
  intros [= <- <- <-]. simpl in Hg, Hf |- *. auto.
Qed.

Lemma train_batches_inv settings batches : forall opt self acc opt' self' losses,
  train_batches' settings opt self batches acc = Some (opt', self', losses) ->
  model self' = model self /\
  param_groups OptState opt' = param_groups OptState opt /\
  (forall l, (forall g, g ∈ param_groups OptState opt -> l ∉ params g) ->
             storage self' !! l = storage self !! l) /\
  exists new, losses = acc ++ new /\ length new = length batches.
Proof.
  induction batches as [|b rest IH]; intros opt self acc opt' self' losses; simpl.
  - intros [= <- <- <-]. repeat split; auto.
    exists []. split; [by rewrite app_nil_r|reflexivity].
  - destruct (train_step' settings opt self b) as [[[o1 s1] l1]|] eqn:Hstep;
      [|discriminate]. simpl.
    intros Hrest. apply train_step_inv in Hstep as (Hm & Hg & Hf).
    apply IH in Hrest as (Hm' & Hg' & Hf' & new & Hnew & Hlen).
    split; [congruence|]. split; [congruence|]. split.
    + intros l Hl. rewrite Hf' by (rewrite Hg; exact Hl). apply Hf, Hl.
    + exists (l1 :: new). split; [by rewrite Hnew, <- app_assoc|simpl; lia].
Qed.

Lemma train_batches_losses settings batches : forall opt self acc opt' self' losses,
  train_batches' settings opt self batches acc = Some (opt', self', losses) ->
  losses = acc ++ batch_losses' settings opt self batches.
Proof.
  induction batches as [|b rest IH]; intros opt self acc opt' self' losses; simpl.
  - intros [= <- <- <-]. by rewrite app_nil_r.
  - destruct (train_step' settings opt self b) as [[[o1 s1] l1]|] eqn:Hstep;
      [|discriminate]. simpl.
    intros Hrest. apply IH in Hrest. by rewrite Hrest, <- app_assoc.
Qed.

Lemma epoch_body_inv settings dl e st st' :
  epoch_body' settings dl e st = Some st' ->
  model (ls_self OptState st') = model (ls_self OptState st) /\
  param_groups OptState (ls_optimizer OptState st')
    = param_groups OptState (ls_optimizer OptState st) /\
  (forall l, (forall g, g ∈ param_groups OptState (ls_optimizer OptState st) ->
                        l ∉ params g) ->
             storage (ls_self OptState st') !! l = storage (ls_self OptState st) !! l) /\
  (best_model_state OptState st' = best_model_state OptState st \/
   best_model_state OptState st'
     = Some (state_dict (model (ls_self OptState st)))).
Proof.
  unfold epoch_body.
  destruct (dataloader_iter dl _) as [batches|]; [|discriminate]. simpl.
  destruct (train_batches' settings _ _ batches [])
    as [[[opt self] losses]|] eqn:Htrain; [|discriminate]. simpl.
  destruct (average_loss dl losses) as [avg|]; [|discriminate]. simpl.
  intros [= <-].
  apply train_batches_inv in Htrain as (Hm & Hg & Hf & _).
  unfold early_stopping.
  destruct (PrimFloat.ltb avg (best_loss OptState st)); simpl;
    repeat split; auto. right. by rewrite Hm.
Qed.

Lemma epoch_loop_inv settings dl epochs : forall st final,
  epoch_loop' settings dl epochs st = Some final ->
  model (ls_self OptState final) = model (ls_self OptState st) /\
  param_groups OptState (ls_optimizer OptState final)
    = param_groups OptState (ls_optimizer OptState st) /\
  (forall l, (forall g, g ∈ param_groups OptState (ls_optimizer OptState st) ->
                        l ∉ params g) ->
             storage (ls_self OptState final) !! l
               = storage (ls_self OptState st) !! l) /\
  (best_model_state OptState final = best_model_state OptState st \/
   best_model_state OptState final
     = Some (state_dict (model (ls_self OptState st)))).
Proof.
  induction epochs as [|e rest IH]; intros st final; simpl.
  - intros [= <-]. auto.
  - destruct (early_stop OptState st).
    + intros [= <-]. simpl. auto.
    + destruct (epoch_body' settings dl e st) as [st1|] eqn:Hbody; [|discriminate].
      simpl. intros Hrest.
      apply epoch_body_inv in Hbody as (Hm & Hg & Hf & Hb).
      apply IH in Hrest as (Hm' & Hg' & Hf' & Hb').
      split; [congruence|]. split; [congruence|]. split.
      * intros l Hl. rewrite Hf' by (rewrite Hg; exact Hl). apply Hf, Hl.
      * rewrite Hm in Hb'. destruct Hb' as [Hb'|Hb']; [|by right].
        rewrite Hb'. exact Hb.
Qed.

(** *** Loading a state dictionary that refers to the parameters themselves *)

Lemma copy_params_alias (sd : gmap string loc) ps : forall st st',
  (forall name l, (name, l) ∈ ps -> sd !! name = Some l) ->
  copy_params sd ps st = Some st' -> st' = st.
Proof.
  induction ps as [|[name l] ps IH]; intros st st' Hsd; simpl.
  - by intros [= <-].
  - rewrite (Hsd name l) by (apply elem_of_cons; by left). simpl.
    destruct (st !! l) as [v|] eqn:Hv; [|discriminate]. simpl.
    assert (Hsel : (if bool_decide (shape v = []) && (dim v =? 1)
                    then first_entry v else Some v) = Some v).
    { destruct (bool_decide_reflect (shape v = [])) as [Hs|_]; [|reflexivity].
      unfold dim. by rewrite Hs. }
    rewrite Hsel. simpl. rewrite bool_decide_eq_true_2 by reflexivity.
    rewrite (insert_id st l v Hv).
    apply IH. intros n' l' Hin. apply Hsd, elem_of_cons. by right.
Qed.

Lemma load_own_state_dict net st st' :
  NoDup (named_parameters net).*1 ->
  load_state_dict net (state_dict net) st = Some st' -> st' = st.
Proof.
  intros Hnd. unfold load_state_dict.
  destruct (bool_decide _); [|discriminate].
  apply copy_params_alias. intros name l Hin.
  unfold state_dict. by apply elem_of_list_to_map_1.
Qed.

(** *** The whole call *)

Lemma fit_inv self train_X train_y os ip self' out :
  fit' self train_X train_y os ip = Some (self', out) ->
  exists ds dl st0 final,
    make_dataset train_X train_y = Some ds /\
    DataLoader_new ds (batch_size (merge_settings os)) = Some dl /\
    match ip with
    | Some sd => load_state_dict (model self) sd (storage self)
    | None => Some (storage self)
    end = Some st0 /\
    length train_y <> 0 /\
    epoch_loop' (merge_settings os) dl (seqZ 1 (num_epochs (merge_settings os)))
      (mkLoop OptState
         (mkModel st0 (grad self)
            (train_mode
               (model (set_reg_weight (mkModel st0 (grad self) (model self))
                         (PrimFloat.div (kl_scale (model self))
                                        (float_of_nat (length train_y)))))))
         (_get_optimizer OptState optimizer_init
            (param_list (model self) (merge_settings os)) (lr (merge_settings os)))
         infinity 0%Z false None None) = Some final /\
    model self' = model (ls_self OptState final) /\
    grad self' = grad (ls_self OptState final) /\
    (NoDup (named_parameters (model self)).*1 ->
     storage self' = storage (ls_self OptState final)) /\
    out = match best_model_state OptState final with
          | Some _ => e ← epoch OptState final; Some (e, best_loss OptState final)
          | None => None
          end.
Proof.
  unfold fit.
  destruct (make_dataset train_X train_y) as [ds|] eqn:Hds; [|discriminate]. simpl.
  destruct (DataLoader_new ds _) as [dl|] eqn:Hdl; [|discriminate]. simpl.
  destruct (match ip with Some sd => _ | None => _ end) as [st0|] eqn:Hst0;
    [|discriminate].
  simpl. destruct (Nat.eqb_spec (length train_y) 0) as [|Hlen]; [discriminate|].
  destruct (epoch_loop' _ dl _ _) as [final|] eqn:Hloop; [|discriminate]. simpl.
  intros Hend. exists ds, dl, st0, final.
  do 4 (split; [first [reflexivity | assumption]|]).
  split; [exact Hloop|].
  pose proof (epoch_loop_inv _ _ _ _ _ Hloop) as (Hm & _ & _ & Hb). simpl in Hm, Hb.
  destruct (best_model_state OptState final) as [sd|].
  - destruct Hb as [Hb|Hb]; [discriminate|]. injection Hb as ->.
    destruct (load_state_dict _ _ _) as [st|] eqn:Hload; [|discriminate].
    simpl in Hend.
    destruct (epoch OptState final) as [e|]; [|discriminate]. simpl in Hend.
    injection Hend as <- <-. simpl.
    do 2 (split; [reflexivity|]). split; [|reflexivity].
    intros Hnd. rewrite Hm in Hload.
    by apply load_own_state_dict in Hload.
  - injection Hend as <- <-. repeat split; reflexivity.
Qed.

(** X20: Whatever snapshot was recorded, the parameters a call ends with are
    those the last trained epoch left: the final load copies every
    parameter onto itself. *)
Lemma fit_ends_with_last_epoch self train_X train_y os ip self' out :
  NoDup (named_parameters (model self)).*1 ->
  fit' self train_X train_y os ip = Some (self', out) ->
  exists dl st0 final,
    epoch_loop' (merge_settings os) dl (seqZ 1 (num_epochs (merge_settings os)))
      (mkLoop OptState
         (mkModel st0 (grad self)
            (train_mode
               (model (set_reg_weight (mkModel st0 (grad self) (model self))
                         (PrimFloat.div (kl_scale (model self))
                                        (float_of_nat (length train_y)))))))
         (_get_optimizer OptState optimizer_init
            (param_list (model self) (merge_settings os)) (lr (merge_settings os)))
         infinity 0%Z false None None) = Some final /\
    self' = ls_self OptState final.
Proof.
  intros Hnd Hfit.
  destruct (fit_inv _ _ _ _ _ _ _ Hfit)
    as (ds & dl & st0 & final & _ & _ & _ & _ & Hloop & Hm & Hg & Hst & _).
  exists dl, st0, final. split; [exact Hloop|].
  specialize (Hst Hnd). destruct self', (ls_self OptState final).
  simpl in Hm, Hg, Hst. congruence.
Qed.

(** C7: after a call of [fit] on N targets, the head's regularization
    weight is the binary64 quotient [kl_scale / N]; with [kl_scale = 2.0]
    and N = 20 it is the binary64 number 0.1. *)
Theorem fit_sets_regularization_weight self train_X train_y os ip self' out :
  fit' self train_X train_y os ip = Some (self', out) ->
  regularization_weight (model self')
    = PrimFloat.div (kl_scale (model self)) (float_of_nat (length train_y)) /\
  (kl_scale (model self) = 2%float -> length train_y = 20 ->
   regularization_weight (model self') = 0.1%float).
Proof.
  intros Hfit.
  destruct (fit_inv _ _ _ _ _ _ _ Hfit)
    as (ds & dl & st0 & final & _ & _ & _ & _ & Hloop & -> & _).
  apply epoch_loop_inv in Hloop as (Hm & _). simpl in Hm.
  rewrite Hm. simpl. split; [reflexivity|].
  intros -> ->. reflexivity.
Qed.

(** C5, as amended: with [freeze_backbone] set, every backbone parameter
    that shares no storage with a head parameter ends the call with the
    value it had once [initialization_params] were loaded, which is the
    value from before the call when none are given. *)
Theorem frozen_backbone_keeps_loaded_values
    self train_X train_y os ip self' out l :
  freeze_backbone (merge_settings os) = true ->
  NoDup (named_parameters (model self)).*1 ->
  l ∈ map snd (parameters (backbone (model self))) ->
  l ∉ map snd (parameters (head (model self))) ->
  fit' self train_X train_y os ip = Some (self', out) ->
  match ip with
  | None => storage self' !! l = storage self !! l
  | Some sd =>
      exists st0, load_state_dict (model self) sd (storage self) = Some st0 /\
                  storage self' !! l = st0 !! l
  end.
Proof.
  intros Hfreeze Hnd _ Hhead Hfit.
  destruct (fit_inv _ _ _ _ _ _ _ Hfit)
    as (ds & dl & st0 & final & _ & _ & Hst0 & _ & Hloop & _ & _ & Hst & _).
  rewrite (Hst Hnd).
  apply epoch_loop_inv in Hloop as (_ & _ & Hframe & _). simpl in Hframe.
  assert (Hl : storage (ls_self OptState final) !! l = st0 !! l).
  { apply Hframe. intros g Hg. unfold param_list in Hg.
    rewrite Hfreeze in Hg. simpl in Hg.
    apply list_elem_of_singleton in Hg. subst g. exact Hhead. }
  destruct ip as [sd|].
  - exists st0. split; assumption.
  - injection Hst0 as <-. exact Hl.
Qed.

(** C4: over an epoch the best loss stays or strictly drops, and the
    counter is reset on a strict drop and advanced otherwise; once the
    counter has reached the patience the loop trains no further epoch,
    whatever epochs remain. *)
Theorem early_stopping_monotone_and_stops settings dl e st st' :
  epoch_body' settings dl e st = Some st' ->
  ((PrimFloat.ltb (best_loss OptState st') (best_loss OptState st) = true /\
    epochs_no_improve OptState st' = 0%Z) \/
   (best_loss OptState st' = best_loss OptState st /\
    epochs_no_improve OptState st' = (epochs_no_improve OptState st + 1)%Z)) /\
  ((patience settings <= epochs_no_improve OptState st')%Z ->
   early_stop OptState st' = true /\
   forall epochs,
     epoch_loop' settings dl epochs st'
     = Some match epochs with
            | [] => st'
            | e' :: _ => set_epoch OptState e' st'
            end).
Proof.
  unfold epoch_body.
  destruct (dataloader_iter dl _) as [batches|]; [|discriminate]. simpl.
  destruct (train_batches' settings _ _ batches [])
    as [[[opt self] losses]|]; [|discriminate]. simpl.
  destruct (average_loss dl losses) as [avg|]; [|discriminate]. simpl.
  intros [= <-]. unfold early_stopping.
  destruct (PrimFloat.ltb avg (best_loss OptState st)) eqn:Hlt;
    cbn [best_loss epochs_no_improve early_stop].
  - split; [left; split; [exact Hlt|reflexivity]|].
    intros Hp. apply Z.leb_le in Hp. rewrite Hp.
    split; [reflexivity|]. intros [|e' rest]; [reflexivity|].
    reflexivity.
  - split; [right; split; reflexivity|].
    intros Hp. apply Z.leb_le in Hp. rewrite Hp.
    split; [reflexivity|]. intros [|e' rest]; [reflexivity|].
    reflexivity.
Qed.

(** C8: the average that an epoch hands to the early-stopping comparison
    is the sum of the losses of that epoch's own mini-batches divided by
    their number, and their number k is the least with N <= k * batch_size. *)
Theorem epoch_average_is_mean_of_epoch_losses settings dl e st st' :
  1 <= dl_batch_size dl ->
  1 <= length (dataset dl) ->
  length (randperm e (length (dataset dl))) = length (dataset dl) ->
  epoch_body' settings dl e st = Some st' ->
  exists batches opt self,
    dataloader_iter dl (randperm e (length (dataset dl))) = Some batches /\
    dl_batch_size dl * (length batches - 1) < length (dataset dl)
      <= dl_batch_size dl * length batches /\
    let losses :=
      batch_losses' settings (ls_optimizer OptState st) (ls_self OptState st) batches in
    length losses = length batches /\
    st' = early_stopping OptState settings e opt self
            (PrimFloat.div (fsum losses) (float_of_nat (length losses))) st.
Proof.
  intros Hbs Hn Hperm. unfold epoch_body.
  destruct (dataloader_iter dl _) as [batches|] eqn:Hiter; [|discriminate]. simpl.
  destruct (train_batches' settings _ _ batches [])
    as [[[opt self] losses]|] eqn:Htrain; [|discriminate]. simpl.
  pose proof (train_batches_losses _ _ _ _ _ _ _ _ Htrain) as Hlosses.
  apply train_batches_inv in Htrain as (_ & _ & _ & new & Hnew & Hlen).
  simpl in Hlosses, Hnew. subst new. rewrite Hlosses in Hlen.
  pose proof (dataloader_iter_length _ _ _ Hbs Hperm Hiter) as Hk.
  pose proof (ceil_div_spec (length (dataset dl)) (dl_batch_size dl) Hbs Hn)
    as [Hk1 Hceil]. fold (dataloader_len dl) in Hk1, Hceil.
  unfold average_loss. rewrite <- Hk in Hk1, Hceil |- *.
  destruct (Nat.eqb_spec (length batches) 0) as [|_]; [lia|]. simpl.
  intros [= <-]. exists batches, opt, self.
  split; [reflexivity|]. split; [exact Hceil|]. split; [exact Hlen|].
  subst losses. rewrite <- Hlen, slice_last_all. reflexivity.
Qed.

End TrainingFacts.

(** C2: on the worked instance the first epoch has the lowest average loss
    (2), records the state dictionary and leaves the head weight at -5; the
    second epoch does not improve and leaves the head weight at 25.  A
    call with one epoch ends at -5; a call with two epochs reports the best
    loss 2 and ends with the head weight at 25, the value left by the
    second epoch, not the one held when the best loss was recorded. *)
Theorem fit_keeps_last_epoch_instead_of_best :
  (st1 ← lsq_epoch 1 lsq_start;
   Some (best_loss unit st1, epochs_no_improve unit st1,
         best_model_state unit st1, storage (ls_self unit st1) !! 1))
  = Some (2%float, 0%Z, Some (state_dict (lsq_net 1 1 1%float)),
          Some (scalar (-5)%float)) /\
  (st1 ← lsq_epoch 1 lsq_start; st2 ← lsq_epoch 2 st1;
   Some (best_loss unit st2, epochs_no_improve unit st2,
         best_model_state unit st2, storage (ls_self unit st2) !! 1))
  = Some (2%float, 1%Z, Some (state_dict (lsq_net 1 1 1%float)),
          Some (scalar 25%float)) /\
  (r ← lsq_fit (lsq_model 1 1 1%float) (ones 2) (zeros 2) (Some (lsq_settings 1)) None;
   Some (storage r.1 !! 1, r.2))
  = Some (Some (scalar (-5)%float), Some (1%Z, 2%float)) /\
  (r ← lsq_fit (lsq_model 1 1 1%float) (ones 2) (zeros 2) (Some (lsq_settings 2)) None;
   Some (storage r.1 !! 1, r.2))
  = Some (Some (scalar 25%float), Some (2%Z, 2%float)).
Proof. repeat split; vm_compute; reflexivity. Qed.

Lemma fit_sets_regularization_weight_witness :
  exists self' out,
    lsq_fit (lsq_model 1 1 2%float) (ones 20) (zeros 20) (Some (lsq_settings 1)) None
    = Some (self', out) /\
    regularization_weight (model self') = 0.1%float.
Proof.
  destruct (lsq_fit (lsq_model 1 1 2%float) (ones 20) (zeros 20)
              (Some (lsq_settings 1)) None) as [[self' out]|] eqn:Hfit;
    [|vm_compute in Hfit; discriminate].
  unfold lsq_fit in Hfit.
  exists self', out. split; [reflexivity|].
  refine (proj2 (fit_sets_regularization_weight _ _ _ _ _ _ _ _ _ _ _ _ _ _ _ Hfit) _ _);
    reflexivity.
Defined.

(** With [freeze_backbone] set and [initialization_params] given, the
    backbone weight is 1 before the call and 3 after it. *)
Lemma frozen_backbone_overwritten_by_initialization_params :
  freeze_backbone (merge_settings (Some (lsq_settings 1))) = true /\
  storage (lsq_model 1 1 1%float) !! 0 = Some (scalar 1%float) /\
  (r ← lsq_fit (lsq_model 1 1 1%float) (ones 2) (zeros 2)
         (Some (lsq_settings 1)) (Some lsq_init);
   storage r.1 !! 0) = Some (scalar 3%float).
Proof. repeat split; vm_compute; reflexivity. Qed.

Lemma frozen_backbone_keeps_loaded_values_witness :
  exists self' out st0,
    lsq_fit (lsq_model 1 1 1%float) (ones 2) (zeros 2)
      (Some (lsq_settings 2)) (Some lsq_init) = Some (self', out) /\
    load_state_dict (model (lsq_model 1 1 1%float)) lsq_init
      (storage (lsq_model 1 1 1%float)) = Some st0 /\
    storage self' !! 0 = st0 !! 0.
Proof.
  destruct (lsq_fit (lsq_model 1 1 1%float) (ones 2) (zeros 2)
              (Some (lsq_settings 2)) (Some lsq_init)) as [[self' out]|] eqn:Hfit;
    [|vm_compute in Hfit; discriminate].
  unfold lsq_fit in Hfit.
  exists self', out.
  destruct (frozen_backbone_keeps_loaded_values lsq_backbone lsq_head lsq_backward
              no_clip unit (fun _ _ => tt) sgd_update in_order
              (lsq_model 1 1 1%float) (ones 2) (zeros 2) (Some (lsq_settings 2))
              (Some lsq_init) self' out 0) as (st0 & Hload & Hl).
  - reflexivity.
  - compute_done.
  - compute_done.
  - compute_done.
  - exact Hfit.
  - exists st0. split; [reflexivity|]. split; assumption.
Defined.

Lemma early_stopping_monotone_and_stops_witness :
  exists st',
    epoch_body lsq_backbone lsq_head lsq_backward no_clip unit sgd_update in_order
      (merge_settings (Some (lsq_settings 2))) lsq_loader 1 lsq_start = Some st' /\
    ((PrimFloat.ltb (best_loss unit st') (best_loss unit lsq_start) = true /\
      epochs_no_improve unit st' = 0%Z) \/
     (best_loss unit st' = best_loss unit lsq_start /\
      epochs_no_improve unit st' = (epochs_no_improve unit lsq_start + 1)%Z)).
Proof.
  destruct (epoch_body lsq_backbone lsq_head lsq_backward no_clip unit sgd_update
              in_order (merge_settings (Some (lsq_settings 2))) lsq_loader 1 lsq_start)
    as [st'|] eqn:Hbody; [|vm_compute in Hbody; discriminate].
  exists st'. split; [reflexivity|].
  exact (proj1 (early_stopping_monotone_and_stops _ _ _ _ _ _ _ _ _ _ _ _ Hbody)).
Defined.

Lemma epoch_average_is_mean_of_epoch_losses_witness :
  exists st' batches,
    epoch_body lsq_backbone lsq_head lsq_backward no_clip unit sgd_update in_order
      (merge_settings (Some (lsq_settings 2))) lsq_loader 1 lsq_start = Some st' /\
    dataloader_iter lsq_loader (in_order 1 2) = Some batches /\
    32 * (length batches - 1) < 2 <= 32 * length batches.
Proof.
  destruct (epoch_body lsq_backbone lsq_head lsq_backward no_clip unit sgd_update
              in_order (merge_settings (Some (lsq_settings 2))) lsq_loader 1 lsq_start)
    as [st'|] eqn:Hbody; [|vm_compute in Hbody; discriminate].
  destruct (epoch_average_is_mean_of_epoch_losses _ _ _ _ _ _ _ _ _ _ _ _
              (ltac:(vm_compute; lia) : 1 <= dl_batch_size lsq_loader)
              (ltac:(vm_compute; lia) : 1 <= length (dataset lsq_loader))
              (eq_refl : length (in_order 1 (length (dataset lsq_loader)))
                         = length (dataset lsq_loader))
              Hbody)
    as (batches & opt & self & Hiter & Hceil & _).
  exists st', batches. split; [reflexivity|]. split; [exact Hiter|exact Hceil].
Defined.

(** * Further properties *)

(** ** The posterior on the other input forms *)

(** X2: one query point with K >= 2 outputs: the mean has K entries and
    the covariance is the K-by-K diagonal matrix of the point's variances. *)
Theorem posterior_single_point_diagonal
    (backbone_forward : Module -> gmap loc Tensor -> Tensor -> option Tensor)
    (head_forward : VBLLNetwork -> gmap loc Tensor -> Tensor -> option VBLLReturn)
    (self : AbstractBLLModel) (X : Tensor) (D K : nat) (out : VBLLReturn) :
  2 <= K ->
  shape X = [1; D] ->
  num_outputs (model self) = K ->
  VBLLNetwork_forward backbone_forward head_forward (storage self) (model self) X
    = Some out ->
  shape (predictive_mean out) = [1; K] ->
  shape (predictive_variance out) = [1; K] ->
  exists p,
    (posterior backbone_forward head_forward self X).2 = Some p /\
    shape (mvn_mean p) = [1 * K] /\
    data (mvn_mean p) = data (predictive_mean out) /\
    shape (mvn_covariance p) = [1 * K; 1 * K] /\
    forall i j, i < K -> j < K ->
      get (mvn_covariance p) [i; j]
      = if i =? j then get (predictive_variance out) [0; i] else 0%float.
Proof.
  intros HK HX HKout Hout Hm Hv. unfold posterior. cbn [snd].
  unfold dim. rewrite HX. cbn [length Nat.eqb negb mbind option_bind].
  rewrite Hout. cbn [mbind option_bind].
  destruct (predictive_mean out) as [ms md]. destruct (predictive_variance out) as [vs vd].
  cbn [shape] in Hm, Hv. subst ms vs.
  assert (Hsq : forall d, squeeze (mkTensor [1; K] d) = mkTensor [K] d).
  { intros d. unfold squeeze. cbn [shape data]. f_equal.
    rewrite filter_cons. destruct (decide (1 <> 1)); [lia|].
    rewrite filter_cons. destruct (decide (K <> 1)); [|lia]. reflexivity. }
  rewrite !Hsq, HKout.
  unfold diag_embed. cbn [shape rev app length mbind option_bind].
  rewrite reshape_ok by (cbn; lia). cbn [mbind option_bind].
  rewrite reshape_ok by (cbn; lia). cbn [mbind option_bind].
  unfold einsum_bqkbrl_bqkrl. cbn [shape Nat.eqb mbind option_bind].
  rewrite reshape_ok by (cbn; lia). cbn [mbind option_bind squeeze_first shape data].
  eexists. split; [reflexivity|]. cbn [mvn_mean mvn_covariance shape data].
  split; [reflexivity|]. split; [reflexivity|]. split; [reflexivity|].
  intros i j Hi Hj. unfold get at 1. cbn [shape data].
  rewrite (nth_tabulate [1; 1; K; 1; K] _ [0; 0; i; 0; j]);
    [|repeat constructor; lia|unfold offset; cbn; lia].
  unfold get at 1. cbn [shape data].
  rewrite (nth_tabulate [K; K] _ [i; j]);
    [|repeat constructor; lia|unfold offset; cbn; lia].
  cbn [take drop length app]. destruct (i =? j); [|reflexivity].
  unfold get, offset. cbn [shape data offset_from]. f_equal; lia.
Qed.

Lemma posterior_single_point_diagonal_witness :
  exists p,
    (posterior lsq_backbone lsq_head (lsq_model 2 2 1%float)
       (mkTensor [1; 2] [1; 2]%float)).2 = Some p /\
    shape (mvn_mean p) = [2] /\ shape (mvn_covariance p) = [2; 2].
Proof.
  destruct (VBLLNetwork_forward lsq_backbone lsq_head
              (storage (lsq_model 2 2 1%float)) (model (lsq_model 2 2 1%float))
              (mkTensor [1; 2] [1; 2]%float)) as [out|] eqn:Hout;
    [|vm_compute in Hout; discriminate].
  destruct (posterior_single_point_diagonal lsq_backbone lsq_head
              (lsq_model 2 2 1%float) (mkTensor [1; 2] [1; 2]%float) 2 2 out)
    as (p & Hp & Hms & _ & Hcs & _);
    [lia|reflexivity|reflexivity|exact Hout
    |vm_compute in Hout; injection Hout as <-; reflexivity
    |vm_compute in Hout; injection Hout as <-; reflexivity|].
  exists p. repeat split; assumption.
Defined.

Lemma flat_index_lt (b q B N : nat) : b < B -> q < N -> b * N + q < B * N.
Proof.
  intros Hb Hq. apply Nat.lt_le_trans with (S b * N); [simpl; lia|].
  apply Nat.mul_le_mono_r. lia.
Qed.

(** X3: a batched input of B groups of N points, single output, at least
    two points in all: the mean has shape (B, N) and the covariance shape
    (B, N, N); each group's slice is the diagonal matrix of the variances
    of that group's points. *)
Theorem posterior_batched_single_output_diagonal
    (backbone_forward : Module -> gmap loc Tensor -> Tensor -> option Tensor)
    (head_forward : VBLLNetwork -> gmap loc Tensor -> Tensor -> option VBLLReturn)
    (self : AbstractBLLModel) (X : Tensor) (B N D : nat) (out : VBLLReturn) :
  2 <= B * N ->
  shape X = [B; N; D] ->
  num_outputs (model self) = 1 ->
  VBLLNetwork_forward backbone_forward head_forward (storage self) (model self)
    (mkTensor [B * N; D] (data X)) = Some out ->
  shape (predictive_mean out) = [B * N; 1] ->
  shape (predictive_variance out) = [B * N; 1] ->
  exists p,
    (posterior backbone_forward head_forward self X).2 = Some p /\
    shape (mvn_mean p) = [B; N * 1] /\
    data (mvn_mean p) = data (predictive_mean out) /\
    shape (mvn_covariance p) = [B; N * 1; N * 1] /\
    forall b q r, b < B -> q < N -> r < N ->
      get (mvn_covariance p) [b; q; r]
      = if q =? r then get (predictive_variance out) [b * N + q; 0] else 0%float.
Proof.
  intros HBN HX HK Hout Hm Hv. unfold posterior. cbn [snd].
  unfold dim. rewrite HX. cbn [length Nat.eqb negb mbind option_bind].
  rewrite reshape_ok by (rewrite HX; cbn; lia). cbn [mbind option_bind].
  rewrite Hout. cbn [mbind option_bind].
  destruct (predictive_mean out) as [ms md]. destruct (predictive_variance out) as [vs vd].
  cbn [shape] in Hm, Hv. subst ms vs.
  assert (Hsq : forall d, squeeze (mkTensor [B * N; 1] d) = mkTensor [B * N] d).
  { intros d. unfold squeeze. cbn [shape data]. f_equal.
    rewrite filter_cons. destruct (decide (B * N <> 1)); [|lia]. reflexivity. }
  rewrite !Hsq, HK.
  unfold diag_embed. cbn [shape rev app length mbind option_bind].
  rewrite reshape_ok by (cbn; lia). cbn [mbind option_bind].
  rewrite reshape_ok by (cbn; nia). cbn [mbind option_bind].
  unfold einsum_bqkbrl_bqkrl. cbn [shape]. rewrite Nat.eqb_refl.
  cbn [mbind option_bind].
  rewrite reshape_ok by (cbn; nia). cbn [mbind option_bind negb].
  eexists. split; [reflexivity|]. cbn [mvn_mean mvn_covariance shape data].
  split; [reflexivity|]. split; [reflexivity|]. split; [reflexivity|].
  intros b q r Hb Hq Hr. unfold get at 1. cbn [shape data].
  rewrite (nth_tabulate [B; N; 1; N; 1] _ [b; q; 0; r; 0]);
    [|repeat constructor; lia|unfold offset; cbn; lia].
  unfold get at 1. cbn [shape data].
  rewrite (nth_tabulate [B * N; B * N] _ [b * N + q; b * N + r]);
    [|repeat constructor; apply flat_index_lt; assumption|unfold offset; cbn; lia].
  cbn [take drop length app].
  replace (b * N + q =? b * N + r) with (q =? r)
    by (destruct (Nat.eqb_spec q r), (Nat.eqb_spec (b * N + q) (b * N + r)); lia).
  destruct (q =? r); [|reflexivity].
  unfold get, offset. cbn [shape data offset_from]. f_equal; lia.
Qed.

Lemma posterior_batched_single_output_diagonal_witness :
  exists p,
    (posterior lsq_backbone lsq_head (lsq_model 1 1 1%float)
       (mkTensor [2; 2; 1] [1; 2; 3; 4]%float)).2 = Some p /\
    shape (mvn_mean p) = [2; 2] /\ shape (mvn_covariance p) = [2; 2; 2].
Proof.
  destruct (VBLLNetwork_forward lsq_backbone lsq_head
              (storage (lsq_model 1 1 1%float)) (model (lsq_model 1 1 1%float))
              (mkTensor [2 * 2; 1] [1; 2; 3; 4]%float)) as [out|] eqn:Hout;
    [|vm_compute in Hout; discriminate].
  destruct (posterior_batched_single_output_diagonal lsq_backbone lsq_head
              (lsq_model 1 1 1%float) (mkTensor [2; 2; 1] [1; 2; 3; 4]%float)
              2 2 1 out)
    as (p & Hp & Hms & _ & Hcs & _);
    [simpl; lia|reflexivity|reflexivity|exact Hout
    |vm_compute in Hout; injection Hout as <-; reflexivity
    |vm_compute in Hout; injection Hout as <-; reflexivity|].
  exists p. repeat split; assumption.
Defined.

(** X4: a batched input with K >= 2 outputs and at least two points in all
    gets no distribution either: the reshape of the per-point covariance to
    (B, N, K, B, N, K) fails as in the unbatched case. *)
Theorem posterior_batched_multi_output_fails
    (backbone_forward : Module -> gmap loc Tensor -> Tensor -> option Tensor)
    (head_forward : VBLLNetwork -> gmap loc Tensor -> Tensor -> option VBLLReturn)
    (self : AbstractBLLModel) (X : Tensor) (B N D K : nat) :
  2 <= B * N -> 2 <= K ->
  shape X = [B; N; D] ->
  num_outputs (model self) = K ->
  (forall out,
      VBLLNetwork_forward backbone_forward head_forward
        (storage self) (model self) (mkTensor [B * N; D] (data X)) = Some out ->
      shape (predictive_mean out) = [B * N; K] /\
      shape (predictive_variance out) = [B * N; K]) ->
  (posterior backbone_forward head_forward self X).2 = None.
Proof.
  intros HBN HK HX HKout Hfwd. unfold posterior. cbn [snd].
  unfold dim. rewrite HX. cbn [length Nat.eqb negb mbind option_bind].
  rewrite reshape_ok by (rewrite HX; cbn; lia). cbn [mbind option_bind].
  destruct (VBLLNetwork_forward backbone_forward head_forward
              (storage self) (model self) (mkTensor [B * N; D] (data X)))
    as [out|] eqn:Hout; [|reflexivity].
  destruct (Hfwd out eq_refl) as [Hm Hv]. cbn [mbind option_bind].
  destruct (predictive_mean out) as [ms md]. destruct (predictive_variance out) as [vs vd].
  cbn [shape] in Hm, Hv. subst ms vs.
  assert (Hsq : Forall (fun n => n <> 1) [B * N; K]) by (repeat constructor; lia).
  rewrite !(squeeze_keeps _ _ Hsq).
  destruct (diag_embed (mkTensor [B * N; K] vd)) as [cov|] eqn:Hcov; [|reflexivity].
  apply (diag_embed_shape _ [B * N] K) in Hcov; [|reflexivity].
  cbn [app] in Hcov. cbn [mbind option_bind].
  destruct (reshape (mkTensor [B * N; K] md) [B; N * num_outputs (model self)]);
    [|reflexivity].
  cbn [mbind option_bind]. rewrite reshape_None; [reflexivity|].
  rewrite Hcov, HKout. cbn [numel foldr]. nia.
Qed.

Lemma posterior_batched_multi_output_fails_witness :
  (posterior lsq_backbone lsq_head (lsq_model 2 2 1%float)
     (mkTensor [1; 2; 2] [1; 2; 3; 4]%float)).2 = None.
Proof.
  apply (posterior_batched_multi_output_fails lsq_backbone lsq_head
           (lsq_model 2 2 1%float) (mkTensor [1; 2; 2] [1; 2; 3; 4]%float) 1 2 2 2);
    [simpl; lia|lia|reflexivity|reflexivity|].
  intros out Hout. vm_compute in Hout. injection Hout as <-. split; reflexivity.
Defined.

(** X5: a batch that holds one group gives the unbatched result under a
    leading axis of size one: dropping that axis from the mean and the
    covariance gives exactly what the unbatched call returns (and the one
    call fails when the other does). *)
Theorem posterior_batch_of_one
    (backbone_forward : Module -> gmap loc Tensor -> Tensor -> option Tensor)
    (head_forward : VBLLNetwork -> gmap loc Tensor -> Tensor -> option VBLLReturn)
    (self : AbstractBLLModel) (N D : nat) (d : list float) :
  (fun p => (squeeze_first (mvn_mean p), squeeze_first (mvn_covariance p))) <$>
    (posterior backbone_forward head_forward self (mkTensor [1; N; D] d)).2
  = (fun p => (mvn_mean p, mvn_covariance p)) <$>
    (posterior backbone_forward head_forward self (mkTensor [N; D] d)).2.
Proof.
  unfold posterior. cbn [snd dim shape length Nat.eqb negb mbind option_bind].
  rewrite reshape_ok by (cbn; lia). cbn [mbind option_bind data].
  replace (1 * N) with N by lia.
  destruct (VBLLNetwork_forward _ _ _ _ _) as [out|]; [|reflexivity].
  cbn [mbind option_bind].
  destruct (diag_embed _) as [cov|]; [|reflexivity]. cbn [mbind option_bind].
  destruct (reshape (squeeze (predictive_mean out)) _) as [mean|]; [|reflexivity].
  cbn [mbind option_bind].
  destruct (reshape cov _) as [cov6|]; [|reflexivity]. cbn [mbind option_bind].
  destruct (einsum_bqkbrl_bqkrl cov6) as [cov5|]; [|reflexivity].
  cbn [mbind option_bind].
  destruct (reshape cov5 _) as [cov3|]; reflexivity.
Qed.

(** ** The values a sampled function returns *)

Lemma proj_single (n i : nat) : i < n -> proj [n] [i] = [i].
Proof.
  intros Hi. unfold proj. simpl.
  destruct (Nat.eqb_spec n 1); [|reflexivity]. f_equal. lia.
Qed.

Lemma proj_three (a n m i j : nat) :
  i < n -> j < m -> proj [1; n; m] [a; i; j] = [0; i; j].
Proof.
  intros Hi Hj. unfold proj. simpl.
  destruct (Nat.eqb_spec n 1), (Nat.eqb_spec m 1); repeat f_equal; lia.
Qed.

Lemma fsum_map_ext {A} (f g : A -> float) (l : list A) :
  (forall a, a ∈ l -> f a = g a) -> fsum (map f l) = fsum (map g l).
Proof.
  intros H. f_equal. apply map_ext_in. intros a Ha. apply H.
  by apply list_elem_of_In.
Qed.

(** X6: with one weight draw W of shape (K, H), entry (m, k) of the output
    is the product of row k of W with the feature vector of point m, summed
    over the H features in order. *)
Theorem SampleModel_forward_single_entries
    (backbone_forward : Module -> gmap loc Tensor -> Tensor -> option Tensor)
    (st : gmap loc Tensor) (sm : SampleModel) (x f : Tensor) (M K H : nat) :
  shape (sampled_params sm) = [K; H] ->
  backbone_forward (sm_backbone sm) st x = Some f ->
  shape f = [M; H] ->
  exists out,
    SampleModel_forward backbone_forward st sm x = Some out /\
    shape out = [M; K] /\
    forall m k, m < M -> k < K ->
      get out [m; k]
      = fsum (map (fun h => PrimFloat.mul (get (sampled_params sm) [k; h])
                                          (get f [m; h]))
                  (seq 0 H)).
Proof.
  intros HW Hf Hfs. unfold SampleModel_forward. rewrite Hf. cbn [mbind option_bind].
  unfold dim. rewrite HW. cbn [length Nat.eqb].
  rewrite matmul_bmm by (unfold dim, unsqueeze_last; cbn [shape]; rewrite ?HW, ?Hfs; simpl; lia).
  unfold bmm, split_last2, unsqueeze_last. cbn [shape]. rewrite HW, Hfs.
  cbn [app rev mbind option_bind]. rewrite Nat.eqb_refl.
  unfold broadcast_shapes. cbn [rev app broadcast_rev fmap option_fmap option_map
                                   mbind option_bind length].
  unfold squeeze_last. cbn [shape tabulate rev app data].
  eexists. split; [reflexivity|]. split; [reflexivity|].
  intros m k Hm Hk. unfold get at 1. cbn [shape data].
  change (map ?g (indices [M; K; 1])) with (data (tabulate [M; K; 1] g)).
  rewrite (nth_tabulate [M; K; 1] _ [m; k; 0]);
    [|repeat constructor; lia|unfold offset; cbn; lia].
  cbn [take drop].
  apply fsum_map_ext. intros h Hh. apply elem_of_seq in Hh.
  rewrite proj_single by exact Hm. f_equal.
  unfold get, offset. cbn [shape data app]. rewrite Hfs. cbn [offset_from].
  f_equal. lia.
Qed.

Lemma expand_leading_eq x S M H :
  shape x = [1; M; H] ->
  expand x [Z.of_nat S; -1; -1]%Z
  = Some (tabulate [S; M; H] (fun idx => get x (proj [1; M; H] idx))).
Proof.
  intros Hx. unfold expand. rewrite Hx. simpl.
  assert (Hneg : (Z.of_nat S =? -1)%Z = false) by (apply Z.eqb_neq; lia).
  assert (Hlt : (Z.of_nat S <? 0)%Z = false) by (apply Z.ltb_ge; lia).
  rewrite Hneg, Hlt, Nat2Z.id.
  destruct (Nat.eqb_spec S 1) as [->|Hne]; reflexivity.
Qed.

(** X7: with S weight draws W of shape (S, K, H), entry (s, k, m) of the
    output is the product of row k of draw s with the feature vector of
    point m: slice s of the output is the transpose of what the
    single-draw path returns for the weights of draw s. *)
Theorem SampleModel_forward_batched_entries
    (backbone_forward : Module -> gmap loc Tensor -> Tensor -> option Tensor)
    (st : gmap loc Tensor) (sm : SampleModel) (x f : Tensor) (S M K H : nat) :
  shape (sampled_params sm) = [S; K; H] ->
  backbone_forward (sm_backbone sm) st x = Some f ->
  shape f = [M; H] ->
  exists out,
    SampleModel_forward backbone_forward st sm x = Some out /\
    shape out = [S; K; M] /\
    forall s k m, s < S -> k < K -> m < M ->
      get out [s; k; m]
      = fsum (map (fun h => PrimFloat.mul (get (sampled_params sm) [s; k; h])
                                          (get f [m; h]))
                  (seq 0 H)).
Proof.
  intros HW Hf Hfs. unfold SampleModel_forward. rewrite Hf. cbn [mbind option_bind].
  unfold dim. rewrite HW. cbn [length Nat.eqb lookup list_lookup mbind option_bind].
  rewrite (expand_leading_eq _ S M H)
    by (unfold unsqueeze_first; cbn [shape]; rewrite Hfs; reflexivity).
  cbn [mbind option_bind].
  unfold transpose_last2. cbn [shape tabulate rev app length mbind option_bind].
  rewrite matmul_bmm by (unfold dim; cbn [shape]; rewrite ?HW; simpl; lia).
  unfold bmm, split_last2. cbn [shape]. rewrite HW, shape_tabulate.
  cbn [app rev mbind option_bind]. rewrite Nat.eqb_refl.
  unfold broadcast_shapes. cbn [rev app broadcast_rev fmap option_fmap option_map
                                   mbind option_bind length].
  rewrite Nat.eqb_refl. cbn [rev app fmap option_fmap option_map mbind option_bind length].
  eexists. split; [reflexivity|]. split; [reflexivity|].
  intros s k m Hs Hk Hm.
  unfold get at 1.
  rewrite (nth_tabulate [S; K; M] _ [s; k; m]);
    [|repeat constructor; lia|unfold offset; cbn; lia].
  cbn [take drop].
  apply fsum_map_ext. intros h Hh. apply elem_of_seq in Hh.
  rewrite proj_single by exact Hs. f_equal.
  unfold get at 1. cbn [shape data app].
  change (map ?g (indices [S; H; M])) with (data (tabulate [S; H; M] g)).
  rewrite (nth_tabulate [S; H; M] _ [s; h; m]);
    [|repeat constructor; lia|reflexivity].
  cbn [take drop app].
  unfold get at 1. cbn [shape data].
  change (map ?g (indices [S; M; H])) with (data (tabulate [S; M; H] g)).
  rewrite (nth_tabulate [S; M; H] _ [s; m; h]);
    [|repeat constructor; lia|reflexivity].
  rewrite proj_three by lia.
  unfold get, offset, unsqueeze_first. cbn [shape data]. rewrite Hfs. cbn [offset_from].
  f_equal; lia.
Qed.

(** X8: a sample shape with two axes (S1, S2), both at least 2 and
    different, gives a function that fails on every batch: the features
    are expanded along S1 only and do not broadcast against the leading
    axes (S1, S2) of the weights. *)
Theorem SampleModel_forward_two_axes_fails
    (backbone_forward : Module -> gmap loc Tensor -> Tensor -> option Tensor)
    (st : gmap loc Tensor) (sm : SampleModel) (x : Tensor) (S1 S2 M K H : nat) :
  2 <= S1 -> 2 <= S2 -> S1 <> S2 ->
  shape (sampled_params sm) = [S1; S2; K; H] ->
  (forall f, backbone_forward (sm_backbone sm) st x = Some f -> shape f = [M; H]) ->
  SampleModel_forward backbone_forward st sm x = None.
Proof.
  intros H1 H2 Hne HW Hshape. unfold SampleModel_forward.
  destruct (backbone_forward (sm_backbone sm) st x) as [f|] eqn:Hf; [|reflexivity].
  specialize (Hshape f eq_refl). cbn [mbind option_bind].
  unfold dim. rewrite HW. cbn [length Nat.eqb lookup list_lookup mbind option_bind].
  rewrite (expand_leading_eq _ S1 M H)
    by (unfold unsqueeze_first; cbn [shape]; rewrite Hshape; reflexivity).
  cbn [mbind option_bind].
  unfold transpose_last2. cbn [shape tabulate rev app length mbind option_bind].
  rewrite matmul_bmm by (unfold dim; cbn [shape]; rewrite ?HW; simpl; lia).
  unfold bmm, split_last2. cbn [shape]. rewrite HW, shape_tabulate.
  cbn [app rev mbind option_bind]. rewrite Nat.eqb_refl.
  unfold broadcast_shapes. cbn [rev app broadcast_rev mbind option_bind].
  destruct (Nat.eqb_spec S2 S1); [lia|].
  destruct (Nat.eqb_spec S2 1); [lia|].
  destruct (Nat.eqb_spec S1 1); [lia|]. reflexivity.
Qed.

Lemma SampleModel_forward_single_entries_witness :
  exists out,
    SampleModel_forward lsq_backbone (storage (lsq_model 2 1 1%float))
      (sample float fill_rsample (lsq_model 2 1 1%float) 0.5%float None).1 x32
    = Some out /\
    get out [2; 0] = 5.5%float.
Proof.
  destruct (SampleModel_forward_single_entries lsq_backbone
              (storage (lsq_model 2 1 1%float))
              (sample float fill_rsample (lsq_model 2 1 1%float) 0.5%float None).1
              x32 x32 3 1 2) as (out & Hout & _ & Hval);
    [reflexivity|reflexivity|reflexivity|].
  exists out. split; [exact Hout|].
  rewrite (Hval 2 0) by lia. vm_compute. reflexivity.
Defined.

Lemma SampleModel_forward_batched_entries_witness :
  exists out,
    SampleModel_forward lsq_backbone (storage (lsq_model 2 1 1%float))
      (sample float fill_rsample (lsq_model 2 1 1%float) 0.5%float (Some [2])).1 x32
    = Some out /\
    get out [1; 0; 2] = 5.5%float.
Proof.
  destruct (SampleModel_forward_batched_entries lsq_backbone
              (storage (lsq_model 2 1 1%float))
              (sample float fill_rsample (lsq_model 2 1 1%float) 0.5%float (Some [2])).1
              x32 x32 2 3 1 2) as (out & Hout & _ & Hval);
    [reflexivity|reflexivity|reflexivity|].
  exists out. split; [exact Hout|].
  rewrite (Hval 1 0 2) by lia. vm_compute. reflexivity.
Defined.

Lemma SampleModel_forward_two_axes_fails_witness :
  SampleModel_forward lsq_backbone (storage (lsq_model 2 1 1%float))
    (sample float fill_rsample (lsq_model 2 1 1%float) 0.5%float (Some [2; 3])).1 x32
  = None.
Proof.
  apply (SampleModel_forward_two_axes_fails lsq_backbone
           (storage (lsq_model 2 1 1%float)) _ x32 2 3 3 1 2);
    [lia|lia|lia|reflexivity|].
  intros f Hf. vm_compute in Hf. injection Hf as <-. reflexivity.
Defined.

(** ** More on the training call *)

Lemma map_snd_prefixed p ps : map snd (prefixed p ps) = map snd ps.
Proof. unfold prefixed. rewrite map_map. reflexivity. Qed.

Lemma named_parameters_locs net :
  map snd (named_parameters net)
  = map snd (parameters (backbone net)) ++ map snd (parameters (head net)).
Proof.
  unfold named_parameters. by rewrite map_app, !map_snd_prefixed.
Qed.

Lemma param_list_within_parameters net settings g l :
  g ∈ param_list net settings -> l ∈ params g ->
  l ∈ map snd (named_parameters net).
Proof.
  rewrite named_parameters_locs. unfold param_list.
  intros Hg Hl. apply elem_of_app in Hg as [Hg|Hg].
  - apply list_elem_of_singleton in Hg. subst g. apply elem_of_app. by right.
  - destruct (freeze_backbone settings); simpl in Hg.
    + by apply elem_of_nil in Hg.
    + apply list_elem_of_singleton in Hg. subst g. apply elem_of_app. by left.
Qed.

Lemma copy_params_frame sd ps : forall st st' l',
  l' ∉ map snd ps -> copy_params sd ps st = Some st' -> st' !! l' = st !! l'.
Proof.
  induction ps as [|[name l] ps IH]; intros st st' l' Hnot; simpl.
  - by intros [= <-].
  - simpl in Hnot. apply not_elem_of_cons in Hnot as [Hne Hnot].
    destruct (sd !! name) as [src|]; [|discriminate]. simpl.
    destruct (st !! src) as [v|]; [|discriminate]. simpl.
    destruct (st !! l) as [p|]; [|discriminate]. simpl.
    destruct (if _ && _ then _ else _) as [v'|]; [|discriminate]. simpl.
    destruct (bool_decide _); [|discriminate].
    intros Hrest. rewrite (IH _ _ _ Hnot Hrest).
    apply lookup_insert_ne. congruence.
Qed.

Lemma load_state_dict_frame net sd st st' l' :
  l' ∉ map snd (named_parameters net) ->
  load_state_dict net sd st = Some st' -> st' !! l' = st !! l'.
Proof.
  intros Hnot. unfold load_state_dict. destruct (bool_decide _); [|discriminate].
  by apply copy_params_frame.
Qed.

Lemma copy_params_missing sd ps name l : forall st,
  (name, l) ∈ ps -> sd !! name = None -> copy_params sd ps st = None.
Proof.
  induction ps as [|[name' l'] ps IH]; intros st Hin Hnone.
  - by apply elem_of_nil in Hin.
  - simpl. apply elem_of_cons in Hin as [Heq|Hin].
    + injection Heq as <- <-. by rewrite Hnone.
    + destruct (sd !! name') as [src|]; [|reflexivity]. simpl.
      destruct (st !! src) as [v|]; [|reflexivity]. simpl.
      destruct (st !! l') as [p|]; [|reflexivity]. simpl.
      destruct (if _ && _ then _ else _) as [v'|]; [|reflexivity]. simpl.
      destruct (bool_decide _); [|reflexivity]. by apply IH.
Qed.

Lemma make_dataset_Some train_X train_y ds :
  make_dataset train_X train_y = Some ds ->
  length ds = length train_X /\ length train_X <= length train_y.
Proof.
  unfold make_dataset. intros Hds. split.
  - apply length_mapM in Hds. by rewrite length_seq in Hds.
  - apply mapM_Some_1 in Hds.
    destruct (Nat.le_gt_cases (length train_X) (length train_y)) as [|Hgt]; [assumption|].
    assert (Hin : length train_y ∈ seq 0 (length train_X)) by (apply elem_of_seq; lia).
    apply list_elem_of_lookup in Hin as [i Hi].
    destruct (Forall2_lookup_l _ _ _ _ _ Hds Hi) as (xy & _ & Hxy).
    rewrite (lookup_ge_None_2 train_y (length train_y)) in Hxy by lia.
    destruct (train_X !! length train_y); discriminate.
Qed.

Section FitFacts.

#[local] Set Default Proof Using "Type".

Variable backbone_forward : Module -> gmap loc Tensor -> Tensor -> option Tensor.
Variable head_forward : VBLLNetwork -> gmap loc Tensor -> Tensor -> option VBLLReturn.
Variable loss_backward :
  VBLLNetwork -> gmap loc Tensor -> Tensor -> Tensor -> gmap loc Tensor.
Variable clip_grad_norm_ : list loc -> float -> gmap loc Tensor -> gmap loc Tensor.
Variable OptState : Type.
Variable optimizer_init : list ParamGroup -> float -> OptState.
Variable optimizer_update :
  OptState -> float -> float -> loc -> Tensor -> Tensor -> OptState * Tensor.
Variable randperm : Z -> nat -> list nat.

Local Abbreviation train_step_ :=
  (train_step backbone_forward head_forward loss_backward clip_grad_norm_
              OptState optimizer_update).
Local Abbreviation train_batches_ :=
  (train_batches backbone_forward head_forward loss_backward clip_grad_norm_
                 OptState optimizer_update).
Local Abbreviation epoch_body_ :=
  (epoch_body backbone_forward head_forward loss_backward clip_grad_norm_
              OptState optimizer_update randperm).
Local Abbreviation epoch_loop_ :=
  (epoch_loop backbone_forward head_forward loss_backward clip_grad_norm_
              OptState optimizer_update randperm).
Local Abbreviation fit_ :=
  (fit backbone_forward head_forward loss_backward clip_grad_norm_
       OptState optimizer_init optimizer_update randperm).

(** The loop variables with which [fit] enters its epoch loop. *)
Local Abbreviation start_ self st0 train_y os :=
  (mkLoop OptState
     (mkModel st0 (grad self)
        (train_mode
           (model (set_reg_weight (mkModel st0 (grad self) (model self))
                     (PrimFloat.div (kl_scale (model self))
                                    (float_of_nat (length train_y)))))))
     (_get_optimizer OptState optimizer_init
        (param_list (model self) (merge_settings os)) (lr (merge_settings os)))
     infinity 0%Z false None None).

Lemma fit_stages self train_X train_y os ip self' out :
  fit_ self train_X train_y os ip = Some (self', out) ->
  exists ds dl st0 final,
    make_dataset train_X train_y = Some ds /\
    DataLoader_new ds (batch_size (merge_settings os)) = Some dl /\
    match ip with
    | Some sd => load_state_dict (model self) sd (storage self)
    | None => Some (storage self)
    end = Some st0 /\
    epoch_loop_ (merge_settings os) dl (seqZ 1 (num_epochs (merge_settings os)))
      (start_ self st0 train_y os) = Some final /\
    model self' = model (ls_self OptState final) /\
    grad self' = grad (ls_self OptState final) /\
    match best_model_state OptState final with
    | Some sd =>
        load_state_dict (model (ls_self OptState final)) sd
          (storage (ls_self OptState final)) = Some (storage self') /\
        exists e, epoch OptState final = Some e /\
                  out = Some (e, best_loss OptState final)
    | None => storage self' = storage (ls_self OptState final) /\ out = None
    end.
Proof.
  unfold fit.
  destruct (make_dataset train_X train_y) as [ds|] eqn:Hds; [|discriminate]. simpl.
  destruct (DataLoader_new ds _) as [dl|] eqn:Hdl; [|discriminate]. simpl.
  destruct (match ip with Some sd => _ | None => _ end) as [st0|] eqn:Hst0;
    [|discriminate].
  simpl. destruct (Nat.eqb_spec (length train_y) 0) as [|Hlen]; [discriminate|].
  destruct (epoch_loop_ _ dl _ _) as [final|] eqn:Hloop; [|discriminate]. simpl.
  intros Hend. exists ds, dl, st0, final.
  do 3 (split; [first [reflexivity | assumption]|]).
  split; [exact Hloop|].
  destruct (best_model_state OptState final) as [sd|].
  - destruct (load_state_dict _ _ _) as [st|] eqn:Hload; [|discriminate].
    simpl in Hend.
    destruct (epoch OptState final) as [e|]; [|discriminate]. simpl in Hend.
    injection Hend as <- <-. simpl. eauto 6.
  - injection Hend as <- <-. repeat split; reflexivity.
Qed.

(** X9: a call that returns was given at least one example, a target for
    every example, and a positive batch size. *)
Theorem fit_returns_only_on_proper_data self train_X train_y os ip self' out :
  fit_ self train_X train_y os ip = Some (self', out) ->
  1 <= length train_X <= length train_y /\
  (0 < batch_size (merge_settings os))%Z.
Proof.
  intros Hfit.
  destruct (fit_stages _ _ _ _ _ _ _ Hfit)
    as (ds & dl & st0 & final & Hds & Hdl & _).
  apply make_dataset_Some in Hds as [Hlen Hle].
  unfold DataLoader_new in Hdl.
  destruct (bool_decide_reflect (ds = [])) as [|Hne]; [discriminate|].
  destruct (Z.ltb_spec 0 (batch_size (merge_settings os))); [|discriminate].
  destruct ds; [contradiction|]. simpl in Hlen. lia.
Qed.

(** X10: a call writes no tensor but the network's own parameters: every
    other location of the storage, the caller's initialization tensors
    among them, holds after the call what it held before. *)
Theorem fit_writes_only_parameters self train_X train_y os ip self' out l :
  l ∉ map snd (named_parameters (model self)) ->
  fit_ self train_X train_y os ip = Some (self', out) ->
  storage self' !! l = storage self !! l.
Proof.
  intros Hl Hfit.
  destruct (fit_stages _ _ _ _ _ _ _ Hfit)
    as (ds & dl & st0 & final & _ & _ & Hst0 & Hloop & _ & _ & Hend).
  pose proof (epoch_loop_inv _ _ _ _ _ _ _ _ _ _ _ _ Hloop) as (Hm & _ & Hframe & _).
  simpl in Hm, Hframe.
  assert (Hnames : named_parameters (model (ls_self OptState final))
                   = named_parameters (model self)) by (by rewrite Hm).
  assert (H0 : st0 !! l = storage self !! l).
  { destruct ip as [sd|]; [|by injection Hst0 as <-].
    by apply (load_state_dict_frame _ _ _ _ _ Hl Hst0). }
  assert (H1 : storage (ls_self OptState final) !! l = st0 !! l).
  { apply Hframe. intros g Hg Hlg. apply Hl.
    by apply (param_list_within_parameters _ _ _ _ Hg). }
  destruct (best_model_state OptState final) as [sd|].
  - destruct Hend as [Hload _].
    rewrite (load_state_dict_frame _ _ _ _ l ltac:(by rewrite Hnames) Hload).
    congruence.
  - destruct Hend as [-> _]. congruence.
Qed.

(** X11: a call leaves both modules in training mode and changes nothing
    else of the network object but the regularization weight: sizes,
    [kl_scale] and the parameter lists are as before. *)
Theorem fit_leaves_training_mode self train_X train_y os ip self' out :
  fit_ self train_X train_y os ip = Some (self', out) ->
  model self'
    = train_mode (model (set_reg_weight self (regularization_weight (model self')))) /\
  training (backbone (model self')) = true /\
  training (head (model self')) = true.
Proof.
  intros Hfit.
  destruct (fit_stages _ _ _ _ _ _ _ Hfit)
    as (ds & dl & st0 & final & _ & _ & _ & Hloop & -> & _).
  apply epoch_loop_inv in Hloop as (-> & _). repeat split; reflexivity.
Qed.

(** X12: with [num_epochs] at most 0 nothing is trained and nothing is
    printed: the call only loads the initialization parameters, if any. *)
Theorem fit_without_epochs self train_X train_y os ip self' out :
  (num_epochs (merge_settings os) <= 0)%Z ->
  fit_ self train_X train_y os ip = Some (self', out) ->
  out = None /\
  grad self' = grad self /\
  match ip with
  | Some sd => load_state_dict (model self) sd (storage self) = Some (storage self')
  | None => storage self' = storage self
  end.
Proof.
  intros Hn Hfit.
  destruct (fit_stages _ _ _ _ _ _ _ Hfit)
    as (ds & dl & st0 & final & _ & _ & Hst0 & Hloop & _ & Hg & Hend).
  rewrite seqZ_nil in Hloop by exact Hn. simpl in Hloop. injection Hloop as <-.
  simpl in Hg, Hend. destruct Hend as [-> ->].
  split; [reflexivity|]. split; [exact Hg|].
  destruct ip; [exact Hst0|by injection Hst0].
Qed.

(** X13: a call with initialization parameters fails when they lack an
    entry for a parameter of the network or hold an entry that names no
    parameter. *)
Theorem fit_rejects_mismatched_initialization self train_X train_y os sd :
  (exists name l, (name, l) ∈ named_parameters (model self) /\ sd !! name = None) \/
  (exists name, is_Some (sd !! name) /\
                name ∉ map fst (named_parameters (model self))) ->
  fit_ self train_X train_y os (Some sd) = None.
Proof.
  intros Hbad.
  destruct (fit_ self train_X train_y os (Some sd)) as [[self' out]|] eqn:Hfit;
    [|reflexivity].
  destruct (fit_stages _ _ _ _ _ _ _ Hfit)
    as (ds & dl & st0 & final & _ & _ & Hst0 & _).
  unfold load_state_dict in Hst0.
  destruct (bool_decide_reflect
              (dom sd ⊆ list_to_set (map fst (named_parameters (model self)))))
    as [Hsub|]; [|discriminate].
  destruct Hbad as [(name & l & Hin & Hnone)|(name & Hsome & Hnot)].
  - by rewrite (copy_params_missing _ _ _ _ _ Hin Hnone) in Hst0.
  - exfalso. apply Hnot. apply elem_of_dom in Hsome. apply Hsub in Hsome.
    by apply elem_of_list_to_set in Hsome.
Qed.

End FitFacts.

Lemma fit_returns_only_on_proper_data_witness :
  exists self' out,
    lsq_fit (lsq_model 1 1 1%float) (ones 2) (zeros 2) (Some (lsq_settings 1)) None
    = Some (self', out) /\
    1 <= length (ones 2) <= length (zeros 2) /\
    (0 < batch_size (merge_settings (Some (lsq_settings 1))))%Z.
Proof.
  destruct (lsq_fit (lsq_model 1 1 1%float) (ones 2) (zeros 2)
              (Some (lsq_settings 1)) None) as [[self' out]|] eqn:Hfit;
    [|vm_compute in Hfit; discriminate].
  unfold lsq_fit in Hfit. exists self', out. split; [reflexivity|].
  exact (fit_returns_only_on_proper_data _ _ _ _ _ _ _ _ _ _ _ _ _ _ _ Hfit).
Defined.

Lemma fit_writes_only_parameters_witness :
  exists self' out,
    lsq_fit (lsq_model 1 1 1%float) (ones 2) (zeros 2)
      (Some (lsq_settings 2)) (Some lsq_init) = Some (self', out) /\
    storage self' !! 2 = storage (lsq_model 1 1 1%float) !! 2.
Proof.
  destruct (lsq_fit (lsq_model 1 1 1%float) (ones 2) (zeros 2)
              (Some (lsq_settings 2)) (Some lsq_init)) as [[self' out]|] eqn:Hfit;
    [|vm_compute in Hfit; discriminate].
  unfold lsq_fit in Hfit. exists self', out. split; [reflexivity|].
  refine (fit_writes_only_parameters _ _ _ _ _ _ _ _ _ _ _ _ _ _ _ 2 _ Hfit).
  compute_done.
Defined.

Lemma fit_leaves_training_mode_witness :
  exists self' out,
    lsq_fit (lsq_model 1 1 1%float) (ones 2) (zeros 2) (Some (lsq_settings 2)) None
    = Some (self', out) /\
    training (backbone (model self')) = true /\
    training (head (model self')) = true.
Proof.
  destruct (lsq_fit (lsq_model 1 1 1%float) (ones 2) (zeros 2)
              (Some (lsq_settings 2)) None) as [[self' out]|] eqn:Hfit;
    [|vm_compute in Hfit; discriminate].
  unfold lsq_fit in Hfit. exists self', out. split; [reflexivity|].
  destruct (fit_leaves_training_mode _ _ _ _ _ _ _ _ _ _ _ _ _ _ _ Hfit)
    as (_ & Hb & Hh).
  split; assumption.
Defined.

Lemma fit_without_epochs_witness :
  exists self' out,
    lsq_fit (lsq_model 1 1 1%float) (ones 2) (zeros 2) (Some (lsq_settings 0)) None
    = Some (self', out) /\
    out = None /\ storage self' = storage (lsq_model 1 1 1%float).
Proof.
  destruct (lsq_fit (lsq_model 1 1 1%float) (ones 2) (zeros 2)
              (Some (lsq_settings 0)) None) as [[self' out]|] eqn:Hfit;
    [|vm_compute in Hfit; discriminate].
  unfold lsq_fit in Hfit. exists self', out. split; [reflexivity|].
  edestruct fit_without_epochs as (Ho & _ & Hs);
    [|exact Hfit|split; [exact Ho|exact Hs]].
  simpl. lia.
Defined.

Lemma fit_rejects_mismatched_initialization_witness :
  lsq_fit (lsq_model 1 1 1%float) (ones 2) (zeros 2) (Some (lsq_settings 1))
    (Some (<["backbone.0.weight"%string := 2]> ∅)) = None.
Proof.
  apply fit_rejects_mismatched_initialization.
  left. exists "head.W_mean"%string, 1. split; [compute_done|reflexivity].
Defined.

(** ** What the result of a call does not depend on *)

Section Independence.

#[local] Set Default Proof Using "Type".

Variable backbone_forward : Module -> gmap loc Tensor -> Tensor -> option Tensor.
Variable head_forward : VBLLNetwork -> gmap loc Tensor -> Tensor -> option VBLLReturn.
Variable loss_backward :
  VBLLNetwork -> gmap loc Tensor -> Tensor -> Tensor -> gmap loc Tensor.
Variables clip clip' : list loc -> float -> gmap loc Tensor -> gmap loc Tensor.
Variable OptState : Type.
Variable optimizer_init : list ParamGroup -> float -> OptState.
Variable optimizer_update :
  OptState -> float -> float -> loc -> Tensor -> Tensor -> OptState * Tensor.
Variable randperm : Z -> nat -> list nat.

Lemma train_batches_ext s s' batches : forall opt self acc,
  clip_val s = clip_val s' ->
  (clip_val s = None \/ clip = clip') ->
  train_batches backbone_forward head_forward loss_backward clip
    OptState optimizer_update s opt self batches acc
  = train_batches backbone_forward head_forward loss_backward clip'
      OptState optimizer_update s' opt self batches acc.
Proof.
  induction batches as [|[x y] rest IH]; intros opt self acc Hc Hclip;
    cbn [train_batches]; [reflexivity|].
  assert (Hstep :
    train_step backbone_forward head_forward loss_backward clip
      OptState optimizer_update s opt self (x, y)
    = train_step backbone_forward head_forward loss_backward clip'
        OptState optimizer_update s' opt self (x, y)).
  { unfold train_step. rewrite <- Hc.
    destruct Hclip as [->| ->]; reflexivity. }
  rewrite Hstep. clear Hstep.
  destruct (train_step _ _ _ _ _ _ _ _ _ _) as [[[o1 s1] l1]|]; [|reflexivity].
  cbn [mbind option_bind]. by apply IH.
Qed.

Lemma epoch_loop_ext s s' dl epochs : forall st,
  clip_val s = clip_val s' ->
  (clip_val s = None \/ clip = clip') ->
  patience s = patience s' ->
  epoch_loop backbone_forward head_forward loss_backward clip
    OptState optimizer_update randperm s dl epochs st
  = epoch_loop backbone_forward head_forward loss_backward clip'
      OptState optimizer_update randperm s' dl epochs st.
Proof.
  induction epochs as [|e rest IH]; intros st Hc Hclip Hp;
    cbn [epoch_loop]; [reflexivity|].
  destruct (early_stop OptState st); [reflexivity|].
  assert (Hbody :
    epoch_body backbone_forward head_forward loss_backward clip
      OptState optimizer_update randperm s dl e st
    = epoch_body backbone_forward head_forward loss_backward clip'
        OptState optimizer_update randperm s' dl e st).
  { unfold epoch_body. destruct (dataloader_iter dl _) as [batches|]; [|reflexivity].
    cbn [mbind option_bind].
    rewrite (train_batches_ext s s' batches _ _ _ Hc Hclip).
    unfold early_stopping. rewrite Hp. reflexivity. }
  rewrite Hbody. clear Hbody.
  destruct (epoch_body _ _ _ _ _ _ _ _ _ _ _) as [st1|]; [|reflexivity].
  cbn [mbind option_bind]. by apply IH.
Qed.

Lemma fit_ext self train_X train_y os os' ip :
  num_epochs (merge_settings os) = num_epochs (merge_settings os') ->
  patience (merge_settings os) = patience (merge_settings os') ->
  batch_size (merge_settings os) = batch_size (merge_settings os') ->
  lr (merge_settings os) = lr (merge_settings os') ->
  clip_val (merge_settings os) = clip_val (merge_settings os') ->
  (clip_val (merge_settings os) = None \/ clip = clip') ->
  param_list (model self) (merge_settings os)
    = param_list (model self) (merge_settings os') ->
  fit backbone_forward head_forward loss_backward clip
    OptState optimizer_init optimizer_update randperm self train_X train_y os ip
  = fit backbone_forward head_forward loss_backward clip'
      OptState optimizer_init optimizer_update randperm self train_X train_y os' ip.
Proof.
  intros Hn Hp Hb Hlr Hc Hclip Hpl. unfold fit.
  destruct (make_dataset train_X train_y) as [ds|]; [|reflexivity].
  cbn [mbind option_bind]. rewrite <- Hb.
  destruct (DataLoader_new ds _) as [dl|]; [|reflexivity].
  cbn [mbind option_bind].
  destruct (match ip with Some sd => _ | None => _ end) as [st0|]; [|reflexivity].
  cbn [mbind option_bind].
  destruct (length train_y =? 0); [reflexivity|].
  change (param_list (model (set_reg_weight ?m ?w)) ?s)
    with (param_list (model m) s).
  cbn [model]. rewrite <- Hn, <- Hlr, <- Hpl.
  rewrite (epoch_loop_ext _ (merge_settings os') _ _ _ Hc Hclip Hp).
  reflexivity.
Qed.

End Independence.

(** X15: With [clip_val] given as [None] the gradient-clipping routine plays no
    part: the call has the same result whatever routine is in place. *)
Theorem fit_without_clipping
    (backbone_forward : Module -> gmap loc Tensor -> Tensor -> option Tensor)
    (head_forward : VBLLNetwork -> gmap loc Tensor -> Tensor -> option VBLLReturn)
    (loss_backward :
       VBLLNetwork -> gmap loc Tensor -> Tensor -> Tensor -> gmap loc Tensor)
    (clip clip' : list loc -> float -> gmap loc Tensor -> gmap loc Tensor)
    (OptState : Type) (optimizer_init : list ParamGroup -> float -> OptState)
    (optimizer_update :
       OptState -> float -> float -> loc -> Tensor -> Tensor -> OptState * Tensor)
    (randperm : Z -> nat -> list nat)
    (self : AbstractBLLModel) (train_X train_y : list Tensor)
    (os : option SettingsDict) (ip : option (gmap string loc)) :
  clip_val (merge_settings os) = None ->
  fit backbone_forward head_forward loss_backward clip
    OptState optimizer_init optimizer_update randperm self train_X train_y os ip
  = fit backbone_forward head_forward loss_backward clip'
      OptState optimizer_init optimizer_update randperm self train_X train_y os ip.
Proof.
  intros Hnone. apply fit_ext; try reflexivity. by left.
Qed.

Lemma fit_without_clipping_witness :
  lsq_fit (lsq_model 1 1 1%float) (ones 2) (zeros 2) (Some (lsq_settings 2)) None
  = fit lsq_backbone lsq_head lsq_backward (fun _ _ _ => ∅) unit (fun _ _ => tt)
      sgd_update in_order (lsq_model 1 1 1%float) (ones 2) (zeros 2)
      (Some (lsq_settings 2)) None.
Proof.
  unfold lsq_fit. apply fit_without_clipping. reflexivity.
Defined.

(** X16: With [freeze_backbone] set the weight-decay setting [wd] plays no part:
    two calls whose settings agree on every other key have the same
    result. *)
Theorem fit_frozen_ignores_wd
    (backbone_forward : Module -> gmap loc Tensor -> Tensor -> option Tensor)
    (head_forward : VBLLNetwork -> gmap loc Tensor -> Tensor -> option VBLLReturn)
    (loss_backward :
       VBLLNetwork -> gmap loc Tensor -> Tensor -> Tensor -> gmap loc Tensor)
    (clip : list loc -> float -> gmap loc Tensor -> gmap loc Tensor)
    (OptState : Type) (optimizer_init : list ParamGroup -> float -> OptState)
    (optimizer_update :
       OptState -> float -> float -> loc -> Tensor -> Tensor -> OptState * Tensor)
    (randperm : Z -> nat -> list nat)
    (self : AbstractBLLModel) (train_X train_y : list Tensor)
    (os os' : option SettingsDict) (ip : option (gmap string loc)) :
  freeze_backbone (merge_settings os) = true ->
  freeze_backbone (merge_settings os') = true ->
  num_epochs (merge_settings os) = num_epochs (merge_settings os') ->
  patience (merge_settings os) = patience (merge_settings os') ->
  batch_size (merge_settings os) = batch_size (merge_settings os') ->
  lr (merge_settings os) = lr (merge_settings os') ->
  clip_val (merge_settings os) = clip_val (merge_settings os') ->
  fit backbone_forward head_forward loss_backward clip
    OptState optimizer_init optimizer_update randperm self train_X train_y os ip
  = fit backbone_forward head_forward loss_backward clip
      OptState optimizer_init optimizer_update randperm self train_X train_y os' ip.
Proof.
  intros Hf Hf' Hn Hp Hb Hlr Hc. apply fit_ext; try assumption.
  - by right.
  - unfold param_list. by rewrite Hf, Hf'.
Qed.

Lemma fit_frozen_ignores_wd_witness :
  lsq_fit (lsq_model 1 1 1%float) (ones 2) (zeros 2) (Some (lsq_settings 2)) None
  = lsq_fit (lsq_model 1 1 1%float) (ones 2) (zeros 2)
      (Some (mkSettingsDict (Some 2%Z) (Some true) None None (Some 1.5%float)
                            (Some 0.5%float) (Some None))) None.
Proof.
  unfold lsq_fit. apply fit_frozen_ignores_wd; reflexivity.
Defined.

(** ** Patience and the printed epoch *)

Section Patience.

#[local] Set Default Proof Using "Type".

Variable backbone_forward : Module -> gmap loc Tensor -> Tensor -> option Tensor.
Variable head_forward : VBLLNetwork -> gmap loc Tensor -> Tensor -> option VBLLReturn.
Variable loss_backward :
  VBLLNetwork -> gmap loc Tensor -> Tensor -> Tensor -> gmap loc Tensor.
Variable clip_grad_norm_ : list loc -> float -> gmap loc Tensor -> gmap loc Tensor.
Variable OptState : Type.
Variable optimizer_init : list ParamGroup -> float -> OptState.
Variable optimizer_update :
  OptState -> float -> float -> loc -> Tensor -> Tensor -> OptState * Tensor.
Variable randperm : Z -> nat -> list nat.

Lemma epoch_loop_stopped settings dl epochs st :
  early_stop OptState st = true ->
  epoch_loop backbone_forward head_forward loss_backward clip_grad_norm_
    OptState optimizer_update randperm settings dl epochs st
  = Some match epochs with
         | [] => st
         | e :: _ => set_epoch OptState e st
         end.
Proof.
  intros Hstop. destruct epochs as [|e rest]; [reflexivity|].
  cbn [epoch_loop]. by rewrite Hstop.
Qed.

Lemma epoch_body_counter settings dl e st st' :
  epoch_body backbone_forward head_forward loss_backward clip_grad_norm_
    OptState optimizer_update randperm settings dl e st = Some st' ->
  epoch OptState st' = Some e /\
  ((0 <= epochs_no_improve OptState st)%Z ->
   (0 <= epochs_no_improve OptState st')%Z) /\
  ((patience settings <= epochs_no_improve OptState st')%Z ->
   early_stop OptState st' = true).
Proof.
  unfold epoch_body.
  destruct (dataloader_iter dl _) as [batches|]; [|discriminate].
  cbn [mbind option_bind].
  destruct (train_batches _ _ _ _ _ _ _ _ _ batches [])
    as [[[opt self] losses]|]; [|discriminate].
  cbn [mbind option_bind].
  destruct (average_loss dl losses) as [avg|]; [|discriminate].
  cbn [mbind option_bind]. intros [= <-]. unfold early_stopping.
  destruct (PrimFloat.ltb avg (best_loss OptState st));
    cbn [epoch epochs_no_improve early_stop];
    (split; [reflexivity|]); (split; [lia|]);
    intros Hp; apply Z.leb_le in Hp; by rewrite Hp.
Qed.

(** X17: With a patience of 0 or less exactly one epoch is trained, whatever
    [num_epochs] >= 1 is: the call returns the state the first epoch left.
    The epoch it prints is 1 when [num_epochs] is 1 and 2 otherwise, the
    loop variable having advanced before the loop was left. *)
Theorem fit_zero_patience_trains_once self train_X train_y os ip self' out :
  (patience (merge_settings os) <= 0)%Z ->
  (1 <= num_epochs (merge_settings os))%Z ->
  NoDup (named_parameters (model self)).*1 ->
  fit backbone_forward head_forward loss_backward clip_grad_norm_
    OptState optimizer_init optimizer_update randperm
    self train_X train_y os ip = Some (self', out) ->
  exists dl st0 st1,
    epoch_body backbone_forward head_forward loss_backward clip_grad_norm_
      OptState optimizer_update randperm (merge_settings os) dl 1
      (mkLoop OptState
         (mkModel st0 (grad self)
            (train_mode
               (model (set_reg_weight (mkModel st0 (grad self) (model self))
                         (PrimFloat.div (kl_scale (model self))
                                        (float_of_nat (length train_y)))))))
         (_get_optimizer OptState optimizer_init
            (param_list (model self) (merge_settings os)) (lr (merge_settings os)))
         infinity 0%Z false None None) = Some st1 /\
    self' = ls_self OptState st1 /\
    out = match best_model_state OptState st1 with
          | Some _ =>
              Some (if (num_epochs (merge_settings os) =? 1)%Z then 1%Z else 2%Z,
                    best_loss OptState st1)
          | None => None
          end.
Proof.
  intros Hp Hn Hnd Hfit.
  destruct (fit_inv _ _ _ _ _ _ _ _ _ _ _ _ _ _ _ Hfit)
    as (ds & dl & st0 & final & _ & _ & _ & _ & Hloop & Hm & Hg & Hst & Hout).
  specialize (Hst Hnd).
  rewrite seqZ_cons in Hloop by lia. cbn [epoch_loop early_stop] in Hloop.
  destruct (epoch_body _ _ _ _ _ _ _ _ _ 1%Z _) as [st1|] eqn:Hbody;
    [|discriminate].
  cbn [mbind option_bind] in Hloop.
  destruct (epoch_body_counter _ _ _ _ _ Hbody) as (He & H0 & Hstop).
  cbn [epochs_no_improve] in H0. specialize (H0 ltac:(lia)).
  specialize (Hstop ltac:(lia)).
  rewrite (epoch_loop_stopped _ _ _ _ Hstop) in Hloop. injection Hloop as <-.
  exists dl, st0, st1. split; [exact Hbody|].
  destruct (Z.eqb_spec (num_epochs (merge_settings os)) 1) as [Heq|Hne].
  - rewrite Heq in *. cbn [Z.pred Z.sub Z.add Z.opp Z.pos_sub] in *.
    rewrite seqZ_nil in * by lia.
    split.
    + destruct self', (ls_self OptState st1). simpl in Hm, Hg, Hst. congruence.
    + rewrite Hout. destruct (best_model_state OptState st1); [|reflexivity].
      by rewrite He.
  - rewrite seqZ_cons in * by lia. cbn [set_epoch ls_self best_model_state
      epoch best_loss] in *.
    split.
    + destruct self', (ls_self OptState st1). simpl in Hm, Hg, Hst. congruence.
    + rewrite Hout. destruct (best_model_state OptState st1); reflexivity.
Qed.

End Patience.

Lemma fit_zero_patience_trains_once_witness :
  exists self' out,
    lsq_fit (lsq_model 1 1 1%float) (ones 2) (zeros 2)
      (Some (mkSettingsDict (Some 3%Z) (Some true) (Some 0%Z) None
                            (Some 1.5%float) None (Some None))) None
    = Some (self', out) /\
    out = Some (2%Z, 2%float) /\
    storage self' !! 1 = Some (scalar (-5)%float).
Proof.
  destruct (lsq_fit (lsq_model 1 1 1%float) (ones 2) (zeros 2)
              (Some (mkSettingsDict (Some 3%Z) (Some true) (Some 0%Z) None
                                    (Some 1.5%float) None (Some None))) None)
    as [[self' out]|] eqn:Hfit; [|vm_compute in Hfit; discriminate].
  exists self', out. split; [reflexivity|].
  unfold lsq_fit in Hfit.
  edestruct fit_zero_patience_trains_once as (dl & st0 & st1 & Hbody & Hs & Ho);
    [| | |exact Hfit|]; [simpl; lia|simpl; lia|compute_done|].
  vm_compute in Hfit. injection Hfit as <- <-. split; reflexivity.
Defined.

(** ** Gradients of a frozen backbone *)

Lemma lookup_zero_grad OptState (opt : Optimizer OptState) grads l :
  zero_grad OptState opt grads !! l
  = if bool_decide (l ∈ concat (map params (param_groups OptState opt)))
    then None else grads !! l.
Proof.
  unfold zero_grad. case_bool_decide as Hl.
  - apply lookup_foldr_delete. exact Hl.
  - by apply lookup_foldr_delete_not_elem_of.
Qed.

(** X18: With a frozen backbone and no clipping, one training step leaves in
    the gradient of a head parameter the gradient of this batch alone,
    while the gradient of a backbone parameter, which the optimizer never
    resets, is the stored gradient plus the gradient of this batch. *)
Theorem train_step_frozen_gradients
    (backbone_forward : Module -> gmap loc Tensor -> Tensor -> option Tensor)
    (head_forward : VBLLNetwork -> gmap loc Tensor -> Tensor -> option VBLLReturn)
    (loss_backward :
       VBLLNetwork -> gmap loc Tensor -> Tensor -> Tensor -> gmap loc Tensor)
    (clip_grad_norm_ : list loc -> float -> gmap loc Tensor -> gmap loc Tensor)
    (OptState : Type)
    (optimizer_update :
       OptState -> float -> float -> loc -> Tensor -> Tensor -> OptState * Tensor)
    (settings : Settings) (opt opt' : Optimizer OptState)
    (self self' : AbstractBLLModel) (x y : Tensor) (loss : float)
    (l : loc) (g n : Tensor) :
  freeze_backbone settings = true ->
  clip_val settings = None ->
  param_groups OptState opt = param_list (model self) settings ->
  train_step backbone_forward head_forward loss_backward clip_grad_norm_
    OptState optimizer_update settings opt self (x, y) = Some (opt', self', loss) ->
  grad self !! l = Some g ->
  loss_backward (model self) (storage self) x y !! l = Some n ->
  grad self' !! l
  = Some (if bool_decide (l ∈ map snd (parameters (head (model self))))
          then n else tensor_add g n).
Proof.
  intros Hfreeze Hclip Hgroups. unfold train_step.
  destruct (VBLLNetwork_forward _ _ _ _ _) as [out|]; [|discriminate].
  cbn [mbind option_bind]. rewrite Hclip.
  destruct (optimizer_step _ _ _ _ _) as [o st']. intros [= <- <- <-] Hg Hn.
  cbn [grad]. unfold accumulate. rewrite lookup_union_with, lookup_zero_grad.
  rewrite Hgroups. unfold param_list. rewrite Hfreeze. cbn [negb app map concat params].
  rewrite app_nil_r, Hn.
  case_bool_decide; [reflexivity|]. rewrite Hg. reflexivity.
Qed.

Lemma train_step_frozen_gradients_witness :
  exists opt' self' loss,
    train_step lsq_backbone lsq_head lsq_backward no_clip unit sgd_update
      (merge_settings (Some (lsq_settings 2))) (ls_optimizer unit lsq_start)
      (mkModel (storage (lsq_model 1 1 1%float))
               (<[0 := scalar 1%float]> (<[1 := scalar 1%float]> ∅))
               (lsq_net 1 1 1%float))
      (mkTensor [2; 1] [1; 1]%float, mkTensor [2; 1] [0; 0]%float)
    = Some (opt', self', loss) /\
    grad self' !! 0 = Some (scalar 5%float).
Proof.
  destruct (train_step lsq_backbone lsq_head lsq_backward no_clip unit sgd_update
              (merge_settings (Some (lsq_settings 2))) (ls_optimizer unit lsq_start)
              (mkModel (storage (lsq_model 1 1 1%float))
                       (<[0 := scalar 1%float]> (<[1 := scalar 1%float]> ∅))
                       (lsq_net 1 1 1%float))
              (mkTensor [2; 1] [1; 1]%float, mkTensor [2; 1] [0; 0]%float))
    as [[[opt' self'] loss]|] eqn:Hstep; [|vm_compute in Hstep; discriminate].
  exists opt', self', loss. split; [reflexivity|].
  pose proof (fun Hf Hc Hg Hgr Hn =>
                train_step_frozen_gradients _ _ _ _ _ _ _ _ _ _ _ _ _ _ 0
                  (scalar 1%float) (scalar 4%float) Hf Hc Hg Hstep Hgr Hn) as H.
  eapply eq_trans; [apply H; reflexivity|]. vm_compute. reflexivity.
Defined.

Lemma fit_ends_with_last_epoch_witness :
  exists self' out,
    lsq_fit (lsq_model 1 1 1%float) (ones 2) (zeros 2) (Some (lsq_settings 2)) None
    = Some (self', out) /\
    exists dl st0 final,
      epoch_loop lsq_backbone lsq_head lsq_backward no_clip unit sgd_update in_order
        (merge_settings (Some (lsq_settings 2))) dl
        (seqZ 1 (num_epochs (merge_settings (Some (lsq_settings 2)))))
        (mkLoop unit
           (mkModel st0 (grad (lsq_model 1 1 1%float))
              (train_mode
                 (model (set_reg_weight
                           (mkModel st0 (grad (lsq_model 1 1 1%float))
                                    (model (lsq_model 1 1 1%float)))
                           (PrimFloat.div (kl_scale (model (lsq_model 1 1 1%float)))
                                          (float_of_nat (length (zeros 2))))))))
           (_get_optimizer unit (fun _ _ => tt)
              (param_list (model (lsq_model 1 1 1%float))
                          (merge_settings (Some (lsq_settings 2))))
              (lr (merge_settings (Some (lsq_settings 2)))))
           infinity 0%Z false None None) = Some final /\
      self' = ls_self unit final.
Proof.
  destruct (lsq_fit (lsq_model 1 1 1%float) (ones 2) (zeros 2)
              (Some (lsq_settings 2)) None) as [[self' out]|] eqn:Hfit;
    [|vm_compute in Hfit; discriminate].
  exists self', out. split; [reflexivity|]. unfold lsq_fit in Hfit.
  refine (fit_ends_with_last_epoch _ _ _ _ _ _ _ _ _ _ _ _ _ _ _ _ Hfit).
  compute_done.
Defined.

(** ** Calling posterior twice *)

(** For modules without hidden state, the posterior with the state
    threaded through is the posterior, and the state is left alone. *)
Lemma posterior_with_state_without_state
    (Hidden : Type)
    (backbone_forward : Module -> gmap loc Tensor -> Tensor -> option Tensor)
    (head_forward : VBLLNetwork -> gmap loc Tensor -> Tensor -> option VBLLReturn)
    (self : AbstractBLLModel) (h : Hidden) (X : Tensor) :
  posterior_with_state Hidden (without_state Hidden backbone_forward)
    (without_state Hidden head_forward) self h X
  = p ← (posterior backbone_forward head_forward self X).2; Some (self, h, p).
Proof.
  unfold posterior_with_state, posterior, VBLLNetwork_forward_with_state,
    VBLLNetwork_forward, without_state. cbn [snd].
  destruct (if negb (dim X =? 3) then _ else _) as [[[[B N] D] X']|]; [|reflexivity].
  cbn [mbind option_bind].
  destruct (backbone_forward _ _ X') as [y|]; [|reflexivity]. cbn [mbind option_bind].
  destruct (head_forward _ _ y) as [out|]; [|reflexivity]. cbn [mbind option_bind].
  destruct (diag_embed _) as [c0|]; [|reflexivity]. cbn [mbind option_bind].
  destruct (reshape _ [B; N * _]) as [m1|]; [|reflexivity]. cbn [mbind option_bind].
  destruct (reshape c0 _) as [c1|]; [|reflexivity]. cbn [mbind option_bind].
  destruct (einsum_bqkbrl_bqkrl c1) as [c2|]; [|reflexivity]. cbn [mbind option_bind].
  destruct (reshape c2 _) as [c3|]; [|reflexivity]. cbn [mbind option_bind].
  destruct (negb _); reflexivity.
Qed.

Section TwoCalls.

#[local] Set Default Proof Using "Type".

Variable Hidden : Type.
Variable backbone_call :
  Module -> gmap loc Tensor -> Hidden -> Tensor -> option (Tensor * Hidden).
Variable head_call :
  VBLLNetwork -> gmap loc Tensor -> Hidden -> Tensor -> option (VBLLReturn * Hidden).

Local Abbreviation forward_ :=
  (VBLLNetwork_forward_with_state Hidden backbone_call head_call).
Local Abbreviation posterior_ :=
  (posterior_with_state Hidden backbone_call head_call).

(** The method touches the model and the hidden state through the forward
    pass only: it returns the model it was given and the hidden state the
    forward pass left, and from any hidden state in which the forward pass
    gives the same output it returns the same posterior. *)
Lemma posterior_with_state_inv self h X self1 h1 p1 :
  posterior_ self h X = Some (self1, h1, p1) ->
  self1 = self /\
  exists X' out,
    forward_ (storage self) (model self) h X' = Some (out, h1) /\
    forall h' h2,
      forward_ (storage self) (model self) h' X' = Some (out, h2) ->
      posterior_ self h' X = Some (self, h2, p1).
Proof.
  unfold posterior_with_state.
  destruct (if negb (dim X =? 3) then _ else _) as [[[[B N] D] X']|]; [|discriminate].
  cbn [mbind option_bind].
  destruct (forward_ (storage self) (model self) h X') as [[out hf]|] eqn:Hf;
    [|discriminate].
  cbn [mbind option_bind].
  destruct (diag_embed _) as [c0|] eqn:E0; [|discriminate]. cbn [mbind option_bind].
  destruct (reshape _ [B; N * _]) as [m1|] eqn:E1; [|discriminate].
  cbn [mbind option_bind].
  destruct (reshape c0 _) as [c1|] eqn:E2; [|discriminate]. cbn [mbind option_bind].
  destruct (einsum_bqkbrl_bqkrl c1) as [c2|] eqn:E3; [|discriminate].
  cbn [mbind option_bind].
  destruct (reshape c2 _) as [c3|] eqn:E4; [|discriminate]. cbn [mbind option_bind].
  destruct (negb (dim X =? 3)) eqn:Eb; intros [= <- <- <-];
    (split; [reflexivity|]; exists X', out; split; [exact Hf|];
     intros h' h2 Hf'; rewrite Hf'; cbn [mbind option_bind];
     rewrite E0; cbn [mbind option_bind]; rewrite E1; cbn [mbind option_bind];
     rewrite E2; cbn [mbind option_bind]; rewrite E3; cbn [mbind option_bind];
     rewrite E4; reflexivity).
Qed.

Variable V : Type.
Variable view : Hidden -> V.

(** A forward pass whose output depends on the hidden state only through
    [view], and which leaves [view] as it was, can be repeated. *)
Lemma forward_with_state_repeats st net h x out h1 :
  (forall h h' x, view h = view h' ->
     fst <$> backbone_call (backbone net) st h x
     = fst <$> backbone_call (backbone net) st h' x) ->
  (forall h x y h', backbone_call (backbone net) st h x = Some (y, h') ->
     view h' = view h) ->
  (forall h h' x, view h = view h' ->
     fst <$> head_call net st h x = fst <$> head_call net st h' x) ->
  (forall h x r h', head_call net st h x = Some (r, h') -> view h' = view h) ->
  forward_ st net h x = Some (out, h1) ->
  view h1 = view h /\
  forall h', view h' = view h -> exists h2, forward_ st net h' x = Some (out, h2).
Proof.
  intros Hbd Hbk Hhd Hhk. unfold VBLLNetwork_forward_with_state.
  destruct (backbone_call (backbone net) st h x) as [[y hb]|] eqn:Eb; [|discriminate].
  cbn [mbind option_bind]. intros Eh.
  pose proof (Hbk _ _ _ _ Eb) as Kb. pose proof (Hhk _ _ _ _ Eh) as Kh.
  split; [congruence|]. intros h' Hv.
  pose proof (Hbd h' h x Hv) as Db. rewrite Eb in Db.
  destruct (backbone_call (backbone net) st h' x) as [[y' hb']|] eqn:Eb';
    [|discriminate]. injection Db as ->.
  cbn [mbind option_bind].
  pose proof (Hbk _ _ _ _ Eb') as Kb'.
  pose proof (Hhd hb' hb y ltac:(congruence)) as Dh. rewrite Eh in Dh.
  destruct (head_call net st hb' y) as [[r' h2]|]; [|discriminate].
  injection Dh as ->. eauto.
Qed.

(** C9, as amended: [posterior] writes nothing of its own, neither the
    model nor the hidden state of the modules.  When the output of the
    forward pass of the model's backbone and head depends on the hidden
    state only through a part [view] of it that the forward pass does not
    change, a second call of [posterior] on the same input returns the
    same posterior, mean and covariance included. *)
Theorem posterior_idempotent self h X self1 h1 p1 :
  (forall h h' x, view h = view h' ->
     fst <$> backbone_call (backbone (model self)) (storage self) h x
     = fst <$> backbone_call (backbone (model self)) (storage self) h' x) ->
  (forall h x y h',
     backbone_call (backbone (model self)) (storage self) h x = Some (y, h') ->
     view h' = view h) ->
  (forall h h' x, view h = view h' ->
     fst <$> head_call (model self) (storage self) h x
     = fst <$> head_call (model self) (storage self) h' x) ->
  (forall h x r h',
     head_call (model self) (storage self) h x = Some (r, h') -> view h' = view h) ->
  posterior_with_state Hidden backbone_call head_call self h X
    = Some (self1, h1, p1) ->
  self1 = self /\ view h1 = view h /\
  exists h2,
    posterior_with_state Hidden backbone_call head_call self1 h1 X
      = Some (self1, h2, p1).
Proof.
  intros Hbd Hbk Hhd Hhk Hp.
  apply posterior_with_state_inv in Hp as (-> & X' & out & Hf & Hagain).
  destruct (forward_with_state_repeats _ _ _ _ _ _ Hbd Hbk Hhd Hhk Hf) as [Hv Hrep].
  split; [reflexivity|]. split; [exact Hv|].
  destruct (Hrep h1 Hv) as [h2 Hf2]. exists h2. by apply Hagain.
Qed.

End TwoCalls.

Lemma posterior_idempotent_witness :
  exists h1 p1,
    posterior_with_state nat dropout_backbone (without_state nat lsq_head)
      (lsq_model 1 1 1%float) 0 x31 = Some (lsq_model 1 1 1%float, h1, p1) /\
    exists h2,
      posterior_with_state nat dropout_backbone (without_state nat lsq_head)
        (lsq_model 1 1 1%float) h1 x31 = Some (lsq_model 1 1 1%float, h2, p1).
Proof.
  destruct (posterior_with_state nat dropout_backbone (without_state nat lsq_head)
              (lsq_model 1 1 1%float) 0 x31) as [[[self1 h1] p1]|] eqn:Hp;
    [|vm_compute in Hp; discriminate].
  destruct (posterior_idempotent nat dropout_backbone (without_state nat lsq_head)
              nat (fun g => g) (lsq_model 1 1 1%float) 0 x31 self1 h1 p1)
    as (-> & _ & h2 & Hp2).
  - intros h h' x Hv. simpl in Hv. by rewrite Hv.
  - intros h x y h'. unfold dropout_backbone. simpl.
    destruct (lsq_backbone _ _ x) as [y'|]; simpl; [|discriminate].
    by intros [= _ <-].
  - intros h h' x Hv. simpl in Hv. by rewrite Hv.
  - intros h x r h'. unfold without_state.
    destruct (lsq_head _ _ x) as [r'|]; simpl; [|discriminate].
    by intros [= _ <-].
  - exact Hp.
  - exists h1, p1. split; [reflexivity|]. exists h2. exact Hp2.
Defined.

(** With dropout in the backbone and the model in training mode, the two
    calls draw different bits: the first call returns the mean (2, 0, 6)
    and leaves the generator at 3, the second call returns (0, 4, 0). *)
Lemma posterior_differs_in_training_mode :
  training (backbone (model lsq_training)) = true /\
  (r ← posterior_with_state nat dropout_backbone (without_state nat lsq_head)
         lsq_training 0 x31;
   Some (r.1.1, r.1.2, data (mvn_mean r.2)))
  = Some (lsq_training, 3, [2; 0; 6]%float) /\
  (r ← posterior_with_state nat dropout_backbone (without_state nat lsq_head)
         lsq_training 3 x31;
   Some (r.1.1, r.1.2, data (mvn_mean r.2)))
  = Some (lsq_training, 6, [0; 4; 0]%float).
Proof. repeat split; vm_compute; reflexivity. Qed.

(** ** The optimizer of a training call *)

Section OptimizerGroups.

#[local] Set Default Proof Using "Type".

Variable backbone_forward : Module -> gmap loc Tensor -> Tensor -> option Tensor.
Variable head_forward : VBLLNetwork -> gmap loc Tensor -> Tensor -> option VBLLReturn.
Variable loss_backward :
  VBLLNetwork -> gmap loc Tensor -> Tensor -> Tensor -> gmap loc Tensor.
Variable clip_grad_norm_ : list loc -> float -> gmap loc Tensor -> gmap loc Tensor.
Variable OptState : Type.
Variable optimizer_init : list ParamGroup -> float -> OptState.
Variable optimizer_update :
  OptState -> float -> float -> loc -> Tensor -> Tensor -> OptState * Tensor.
Variable randperm : Z -> nat -> list nat.

(** C6: a call of [fit] that returns has trained with an optimizer
    constructed over the head's parameters with weight decay exactly 0,
    followed by the backbone's parameters with the configured decay exactly
    when [freeze_backbone] is false; the epoch loop starts with this
    optimizer, the optimizer still has these groups when the loop ends, and
    the model returned is the one the loop ends with. *)
Theorem optimizer_param_groups self train_X train_y os ip self' out :
  fit backbone_forward head_forward loss_backward clip_grad_norm_
      OptState optimizer_init optimizer_update randperm
      self train_X train_y os ip = Some (self', out) ->
  exists ds dl st0 final head_group rest,
    params head_group = map snd (parameters (head (model self))) /\
    weight_decay head_group = 0%float /\
    (freeze_backbone (merge_settings os) = false <->
     rest = [mkGroup (map snd (parameters (backbone (model self))))
                     (wd (merge_settings os))]) /\
    (freeze_backbone (merge_settings os) = true <-> rest = []) /\
    make_dataset train_X train_y = Some ds /\
    DataLoader_new ds (batch_size (merge_settings os)) = Some dl /\
    match ip with
    | Some sd => load_state_dict (model self) sd (storage self)
    | None => Some (storage self)
    end = Some st0 /\
    epoch_loop backbone_forward head_forward loss_backward clip_grad_norm_
        OptState optimizer_update randperm
        (merge_settings os) dl (seqZ 1 (num_epochs (merge_settings os)))
        (mkLoop OptState
           (mkModel st0 (grad self)
              (train_mode
                 (model (set_reg_weight (mkModel st0 (grad self) (model self))
                           (PrimFloat.div (kl_scale (model self))
                                          (float_of_nat (length train_y)))))))
           (_get_optimizer OptState optimizer_init (head_group :: rest)
              (lr (merge_settings os)))
           infinity 0%Z false None None) = Some final /\
    param_groups OptState (ls_optimizer OptState final) = head_group :: rest /\
    model self' = model (ls_self OptState final) /\
    grad self' = grad (ls_self OptState final) /\
    (NoDup (named_parameters (model self)).*1 ->
     storage self' = storage (ls_self OptState final)).
Proof.
  intros Hfit.
  destruct (fit_inv _ _ _ _ _ _ _ _ _ _ _ _ _ _ _ Hfit)
    as (ds & dl & st0 & final & Hds & Hdl & Hst0 & _ & Hloop & Hm & Hg & Hst & _).
  exists ds, dl, st0, final,
    (mkGroup (map snd (parameters (head (model self)))) 0%float),
    (if negb (freeze_backbone (merge_settings os))
     then [mkGroup (map snd (parameters (backbone (model self))))
                   (wd (merge_settings os))]
     else []).
  split; [reflexivity|]. split; [reflexivity|].
  split; [destruct (freeze_backbone (merge_settings os)); simpl; split; congruence|].
  split; [destruct (freeze_backbone (merge_settings os)); simpl; split; congruence|].
  do 3 (split; [assumption|]).
  split; [exact Hloop|].
  split; [|auto].
  apply epoch_loop_inv in Hloop as (_ & Hgroups & _). exact Hgroups.
Qed.

End OptimizerGroups.

Lemma optimizer_param_groups_witness :
  exists self' out,
    lsq_fit (lsq_model 1 1 1%float) (ones 2) (zeros 2) (Some (lsq_settings 2)) None
    = Some (self', out) /\
    exists final,
      epoch_loop lsq_backbone lsq_head lsq_backward no_clip unit sgd_update in_order
        (merge_settings (Some (lsq_settings 2))) lsq_loader
        (seqZ 1 2) lsq_start = Some final /\
      param_groups unit (ls_optimizer unit final) = [mkGroup [1] 0%float] /\
      self' = ls_self unit final.
Proof.
  destruct (lsq_fit (lsq_model 1 1 1%float) (ones 2) (zeros 2)
              (Some (lsq_settings 2)) None) as [[self' out]|] eqn:Hfit;
    [|vm_compute in Hfit; discriminate].
  exists self', out. split; [reflexivity|]. unfold lsq_fit in Hfit.
  destruct (optimizer_param_groups _ _ _ _ _ _ _ _ _ _ _ _ _ _ _ Hfit)
    as (ds & dl & st0 & final & hg & rest & Hp & Hwd & _ & Hfrozen
        & Hds & Hdl & Hst0 & Hloop & Hgroups & Hm & Hg & Hst).
  assert (Hrest : rest = []) by (apply Hfrozen; reflexivity).
  assert (Hhg : hg = mkGroup [1] 0%float).
  { destruct hg as [ps w]. simpl in Hp, Hwd. by rewrite Hp, Hwd. }
  subst rest hg.
  injection Hds as <-. injection Hdl as <-. injection Hst0 as <-.
  exists final. split; [exact Hloop|]. split; [exact Hgroups|].
  specialize (Hst ltac:(compute_done)).
  destruct self', (ls_self unit final). simpl in Hm, Hg, Hst. congruence.
Defined.

(** ** One pass over the data loader *)

Lemma chunks_fuel_cover {A} (bs : nat) : forall fuel (l : list A),
  1 <= bs -> length l <= fuel ->
  concat (chunks_fuel fuel bs l) = l /\
  Forall (fun c => 1 <= length c <= bs) (chunks_fuel fuel bs l).
Proof.
  induction fuel as [|fuel IH]; intros l Hbs Hlen.
  - destruct l; [|simpl in Hlen; lia]. split; [reflexivity|constructor].
  - destruct l as [|a l]; [split; [reflexivity|constructor]|].
    cbn [chunks_fuel concat].
    destruct (IH (drop bs (a :: l)) Hbs) as [Hcat Hall].
    { rewrite length_drop. simpl in *. lia. }
    rewrite Hcat. split; [apply take_drop|]. constructor; [|exact Hall].
    rewrite length_take. simpl. lia.
Qed.

Lemma make_dataset_zip train_X train_y ds :
  make_dataset train_X train_y = Some ds -> ds = zip train_X train_y.
Proof.
  intros Hds. pose proof (make_dataset_Some _ _ _ Hds) as [Hlen Hle].
  unfold make_dataset in Hds. apply mapM_Some_1 in Hds.
  apply list_eq. intros i.
  destruct (decide (i < length train_X)) as [Hi|Hi].
  - assert (Hseq : seq 0 (length train_X) !! i = Some i).
    { rewrite lookup_seq. split; [reflexivity|exact Hi]. }
    destruct (Forall2_lookup_l _ _ _ _ _ Hds Hseq) as (ex & Hex & Hxy).
    destruct (train_X !! i) as [x|] eqn:Hx; [|discriminate]. simpl in Hxy.
    destruct (train_y !! i) as [y|] eqn:Hy; [|discriminate]. simpl in Hxy.
    injection Hxy as <-. rewrite Hex. symmetry.
    apply lookup_zip_with_Some. eauto.
  - rewrite (lookup_ge_None_2 ds) by lia.
    symmetry. apply lookup_ge_None_2. rewrite length_zip. lia.
Qed.

Lemma lookups_of_permutation {A} (l rows : list A) (perm : list nat) :
  perm ≡ₚ seq 0 (length l) ->
  Forall2 (fun i a => l !! i = Some a) perm rows ->
  rows ≡ₚ l.
Proof.
  intros Hperm Hrows.
  destruct (Permutation_Forall2 Hperm Hrows) as (rows' & Hpr & Hrows').
  rewrite Hpr. clear Hperm Hrows Hpr rows perm.
  assert (Heq : rows' = l); [|by rewrite Heq].
  apply list_eq. intros i.
  destruct (l !! i) as [a|] eqn:Ha.
  - assert (Hi : seq 0 (length l) !! i = Some i).
    { apply lookup_seq. split; [reflexivity|]. by apply lookup_lt_Some in Ha. }
    destruct (Forall2_lookup_l _ _ _ _ _ Hrows' Hi) as (b & Hb & Hlb).
    congruence.
  - apply lookup_ge_None in Ha. apply lookup_ge_None.
    apply Forall2_length in Hrows'. rewrite length_seq in Hrows'. lia.
Qed.

(** The batches of a pass are the collations of groups of examples. *)
Lemma dataloader_iter_groups dl perm batches :
  dataloader_iter dl perm = Some batches ->
  exists groups : list (list (Tensor * Tensor)),
    Forall2 (Forall2 (fun i ex => dataset dl !! i = Some ex))
            (chunks (dl_batch_size dl) perm) groups /\
    mapM collate groups = Some batches.
Proof.
  unfold dataloader_iter. generalize (chunks (dl_batch_size dl) perm). intros cs.
  revert batches. induction cs as [|idxs cs IH]; intros batches.
  - intros [= <-]. exists []. split; [constructor|reflexivity].
  - cbn [mapM]. 
    destruct (mapM (fun i => dataset dl !! i) idxs) as [g|] eqn:Hg;
      cbn [mbind option_bind]; [|discriminate].
    destruct (collate g) as [b|] eqn:Hb; cbn [mbind option_bind]; [|discriminate].
    destruct (mapM _ cs) as [bs|] eqn:Hbs; cbn [mbind option_bind]; [|discriminate].
    intros [= <-]. destruct (IH bs eq_refl) as (groups & Hgroups & Hcol).
    exists (g :: groups). split.
    + constructor; [|exact Hgroups]. by apply mapM_Some_1.
    + cbn [mapM]. rewrite Hb. cbn [mbind option_bind]. rewrite Hcol. reflexivity.
Qed.

Lemma Forall2_concat_lengths {A B} (P : A -> B -> Prop) (ls : list (list A))
    (ks : list (list B)) :
  Forall2 (Forall2 P) ls ks ->
  Forall2 P (concat ls) (concat ks) /\
  Forall2 (fun l k => length l = length k) ls ks.
Proof.
  induction 1 as [|l k ls ks Hlk _ [IH1 IH2]]; [split; constructor|].
  split.
  - simpl. by apply Forall2_app.
  - constructor; [by apply Forall2_length in Hlk|exact IH2].
Qed.

(** X19: in one pass over the loader that [fit] builds, with the sampler
    drawing a permutation of the indices, the batches are the collations
    of groups of between 1 and [batch_size] examples; the groups, one
    after the other, are the pairs of [train_X[i]] and [train_y[i]] in the
    order drawn, so every training pair is handed out exactly once. *)
Theorem dataloader_iter_covers (train_X train_y : list Tensor) (bs : Z)
    (ds : list (Tensor * Tensor)) (dl : DataLoader) (perm : list nat)
    (batches : list (Tensor * Tensor)) :
  make_dataset train_X train_y = Some ds ->
  DataLoader_new ds bs = Some dl ->
  perm ≡ₚ seq 0 (length train_X) ->
  dataloader_iter dl perm = Some batches ->
  exists groups : list (list (Tensor * Tensor)),
    mapM collate groups = Some batches /\
    Forall (fun g => 1 <= length g <= Z.to_nat bs) groups /\
    mapM (fun i => zip train_X train_y !! i) perm = Some (concat groups) /\
    concat groups ≡ₚ zip train_X train_y.
Proof.
  intros Hds Hdl Hperm Hiter.
  pose proof (make_dataset_Some _ _ _ Hds) as [Hlen _].
  apply make_dataset_zip in Hds. subst ds.
  unfold DataLoader_new in Hdl.
  destruct (bool_decide _); [discriminate|].
  destruct (Z.ltb_spec 0 bs) as [Hbs|]; [|discriminate]. injection Hdl as <-.
  destruct (dataloader_iter_groups _ _ _ Hiter) as (groups & Hgroups & Hcol).
  cbn [dataset dl_batch_size] in Hgroups.
  destruct (chunks_fuel_cover (Z.to_nat bs) (length perm) perm ltac:(lia) (le_n _))
    as [Hcat Hall].
  fold (chunks (Z.to_nat bs) perm) in Hcat, Hall.
  destruct (Forall2_concat_lengths _ _ _ Hgroups) as [Hrows Hlens].
  rewrite Hcat in Hrows.
  exists groups. split; [exact Hcol|]. split; [|split].
  - clear -Hall Hlens. induction Hlens as [|c g cs gs Hcg _ IH]; [constructor|].
    apply Forall_cons in Hall as [Hc Hall]. constructor; [lia|by apply IH].
  - by apply mapM_Some_2.
  - apply (lookups_of_permutation _ _ perm); [by rewrite Hlen|exact Hrows].
Qed.

Lemma dataloader_iter_covers_witness :
  exists batches groups,
    dataloader_iter
      (mkDataLoader (zip [row [1%float]; row [2%float]; row [3%float]]
                         [row [10%float]; row [20%float]; row [30%float]]) 2)
      [1; 0; 2] = Some batches /\
    mapM collate groups = Some batches /\
    concat groups ≡ₚ zip [row [1%float]; row [2%float]; row [3%float]]
                          [row [10%float]; row [20%float]; row [30%float]].
Proof.
  destruct (dataloader_iter
              (mkDataLoader (zip [row [1%float]; row [2%float]; row [3%float]]
                                 [row [10%float]; row [20%float]; row [30%float]]) 2)
              [1; 0; 2]) as [batches|] eqn:Hiter;
    [|vm_compute in Hiter; discriminate].
  destruct (dataloader_iter_covers
              [row [1%float]; row [2%float]; row [3%float]]
              [row [10%float]; row [20%float]; row [30%float]] 2 _ _ [1; 0; 2] batches
              eq_refl eq_refl)
    as (groups & Hcol & _ & _ & Hall).
  - apply perm_swap.
  - exact Hiter.
  - exists batches, groups. split; [reflexivity|]. split; assumption.
Defined.
